(** * HealthWatch inference API: the deterministic risk-scoring engine

    A shallow embedding of

    - [app/core/exceptions.py]            (the exception classes),
    - [app/domain/models/prediction.py]   ([RiskLevel], [HealthMetrics],
                                           [RiskAssessment]),
    - [app/domain/services/risk_scorer.py] ([RiskScoringService]),
    - [app/schemas/prediction.py]          (the request and response
                                           records, [validate_bmi]),
    - [app/api/routes/predictions.py]      ([predict_health_risk]),
    - [app/infrastructure/ml/model_loader.py] ([ModelLoader]),
    - [app/core/logging.py]                (the dictionary of
                                           [JSONFormatter.format]),

    followed by the properties of the scoring engine and of the code
    around it.

    Python's [float] is an IEEE 754 binary64 number.  It is modelled by the
    Standard Library's specification of binary floating point ([SpecFloat],
    precision 53, [emax] 1024), an ordinary definition of the IEEE 754
    operations over sign, mantissa and exponent: every product, sum and
    comparison below is the correctly rounded binary64 operation, so a
    score such as [0.1*0.3 + 0.1*0.4 + 0.6*0.3] has here the very bits it
    has in CPython.  Python's [int] is [Z]. *)

From Stdlib Require Import ZArith List String Ascii Bool Lia.
From Stdlib Require Import Floats.SpecFloat.
From Stdlib Require Import DecimalString.
Import ListNotations.

Open Scope Z_scope.

(* ================================================================= *)
(** ** Binary64 arithmetic *)

Module Float64.

Definition prec : Z := 53.
Definition emax : Z := 1024.

Abbreviation float := spec_float.

Definition add : float -> float -> float := SFadd prec emax.
Definition mul : float -> float -> float := SFmul prec emax.
Definition div : float -> float -> float := SFdiv prec emax.

(** Python's [<], [<=] and [>] on floats (all false on a NaN). *)
Definition ltb : float -> float -> bool := SFltb.
Definition leb : float -> float -> bool := SFleb.
Definition gtb (x y : float) : bool := SFltb y x.

Definition is_nan (x : float) : bool :=
  match x with S754_nan => true | _ => false end.

(** The integer [n] with sign [s], as a mantissa that has not been
    rounded to 53 bits: only ever used as an operand of [div], which
    rounds the exact quotient once. *)
Definition unrounded (s : bool) (n : Z) : float :=
  match n with
  | Z0 => S754_zero s
  | Zpos p | Zneg p => S754_finite s p 0
  end.

(** The decimal literal with digits [n] and [k] digits after the point,
    [n / 10^k], read the way Python reads a literal: the binary64 number
    nearest to it, ties to even. *)
Definition decimal (n : Z) (k : nat) : float :=
  div (unrounded (n <? 0) n) (unrounded false (10 ^ Z.of_nat k)).

(** Decimal literals [0.3], [18.5], [30] of type [float]. *)
Variant literal := Literal (n : Z) (k : nat).

Definition literal_of_number (d : Number.number) : option literal :=
  match d with
  | Number.Decimal (Decimal.Decimal i f) =>
      Some (Literal (Z.of_int (Decimal.app_int i f)) (Decimal.nb_digits f))
  | _ => None
  end.

Definition number_of_literal (l : literal) : option Number.number := None.

Declare Scope float_scope.
Delimit Scope float_scope with float.
Bind Scope float_scope with spec_float.

Number Notation spec_float literal_of_number number_of_literal
  (via literal mapping [[decimal] => Literal]) : float_scope.

Notation "x + y" := (add x y) : float_scope.
Notation "x * y" := (mul x y) : float_scope.
Notation "x <? y" := (ltb x y) : float_scope.
Notation "x <=? y" := (leb x y) : float_scope.
Notation "x >? y" := (gtb x y) : float_scope.

(** [n / d] rounded to the nearest integer, ties to the even one
    ([0 <= n], [0 < d]). *)
Definition div_half_even (n d : Z) : Z :=
  let q := n / d in
  match 2 * (n mod d) ?= d with
  | Lt => q
  | Gt => q + 1
  | Eq => if Z.even q then q else q + 1
  end.

(** The integer nearest to [m * 2^e * 10^k], ties to even: the digits of
    the correctly rounded decimal expansion of [m * 2^e] with [k] digits
    after the point. *)
Definition decimal_digits (m : positive) (e : Z) (k : nat) : Z :=
  if 0 <=? e
  then Zpos m * 2 ^ e * 10 ^ Z.of_nat k
  else div_half_even (Zpos m * 10 ^ Z.of_nat k) (2 ^ (- e)).

(** Literals and operations are only ever evaluated on closed terms, by
    [vm_compute]. *)
Arguments decimal : simpl never.
Arguments add : simpl never.
Arguments mul : simpl never.
Arguments div : simpl never.
Arguments ltb : simpl never.
Arguments leb : simpl never.
Arguments gtb : simpl never.

End Float64.

Import Float64.

(* ================================================================= *)
(** ** The Python built-ins the engine calls *)

Module Py.

(** [str(n)] for an [int]. *)
Definition str_int (n : Z) : string := NilZero.string_of_int (Z.to_int n).

(** [round(x, ndigits)] for a float [x] and [0 <= ndigits]: CPython
    prints [x] with [ndigits] correctly rounded digits after the point
    and reads the decimal string back; NaN and the infinities are
    returned unchanged, and a negative [x] that rounds to zero gives
    [-0.0]. *)
Definition round (x : float) (ndigits : nat) : float :=
  match x with
  | S754_finite s m e =>
      div (unrounded s (decimal_digits m e ndigits))
          (unrounded false (10 ^ Z.of_nat ndigits))
  | _ => x
  end.

Definition sign_str (s : bool) : string := if s then "-" else "".

(** [format(x, ".1f")], the conversion of [f"{x:.1f}"]. *)
Definition format_1f (x : float) : string :=
  match x with
  | S754_nan => "nan"
  | S754_infinity s => sign_str s ++ "inf"
  | S754_zero s => sign_str s ++ "0.0"
  | S754_finite s m e =>
      let q := decimal_digits m e 1 in
      sign_str s ++ str_int (q / 10) ++ "." ++ str_int (q mod 10)
  end.

(** A value interpolated into an exception message. *)
Variant value :=
  | Int (n : Z)
  | Float (x : float).

Arguments str_int : simpl never.
Arguments round : simpl never.
Arguments format_1f : simpl never.

End Py.

(* ================================================================= *)
(** ** [app/core/exceptions.py] and the built-in [ValueError] *)

Module Exceptions.

(** The classes of [exceptions.py]: the base class and its three
    subclasses, which add nothing to it. *)
Variant health_watch_class :=
  | HealthWatchException
  | ModelLoadError
  | PredictionError
  | InvalidInputError.

(** What a [raise] of the domain layer can carry.  Every [ValueError] of
    the domain models has the message [f"<text>{value}"]: it is kept as
    the literal text and the interpolated value (the [str] of a float,
    its shortest round-trip representation, is not rendered). *)
Variant exn :=
  | ValueError (text : string) (value : Py.value)
  | HealthWatch (cls : health_watch_class) (message : string)
                (details : list (string * string)).

Definition is_InvalidInputError (e : exn) : bool :=
  match e with
  | HealthWatch InvalidInputError _ _ => true
  | _ => false
  end.

(** The outcome of a call that may raise. *)
Variant result (A : Type) :=
  | Ok (a : A)
  | Raise (e : exn).

Arguments Ok {A} a.
Arguments Raise {A} e.

End Exceptions.

Import Exceptions.

(* ================================================================= *)
(** ** [app/domain/models/prediction.py] *)

Variant RiskLevel := LOW | MEDIUM | HIGH | CRITICAL.

(** The [str] value of each member of the enumeration. *)
Definition RiskLevel_value (l : RiskLevel) : string :=
  match l with
  | LOW => "low"
  | MEDIUM => "medium"
  | HIGH => "high"
  | CRITICAL => "critical"
  end.

Record HealthMetrics := mkHealthMetrics {
  age : Z;
  bmi : float;
  blood_pressure_systolic : Z
}.

(** [HealthMetrics(age, bmi, blood_pressure_systolic)]: the generated
    [__init__] stores the three fields and calls [__post_init__], whose
    three checks run in this order. *)
Definition HealthMetrics_init (age : Z) (bmi : float)
    (blood_pressure_systolic : Z) : result HealthMetrics :=
  if (age <? 0) || (age >? 120) then
    Raise (ValueError "Invalid age: " (Py.Int age))
  else if (bmi <? 10)%float || (bmi >? 60)%float then
    Raise (ValueError "Invalid BMI: " (Py.Float bmi))
  else if (blood_pressure_systolic <? 60) || (blood_pressure_systolic >? 250) then
    Raise (ValueError "Invalid blood pressure: " (Py.Int blood_pressure_systolic))
  else
    Ok (mkHealthMetrics age bmi blood_pressure_systolic).

Record RiskAssessment := mkRiskAssessment {
  risk_score : float;
  risk_level : RiskLevel;
  confidence : float;
  contributing_factors : list string
}.

(** [RiskAssessment(...)] with the two range checks of its
    [__post_init__]; [not 0 <= x <= 1] is [not (0 <= x and x <= 1)]. *)
Definition RiskAssessment_init (risk_score : float) (risk_level : RiskLevel)
    (confidence : float) (contributing_factors : list string)
    : result RiskAssessment :=
  if negb ((0 <=? risk_score)%float && (risk_score <=? 1)%float) then
    Raise (ValueError "Risk score must be 0-1, got " (Py.Float risk_score))
  else if negb ((0 <=? confidence)%float && (confidence <=? 1)%float) then
    Raise (ValueError "Confidence must be 0-1, got " (Py.Float confidence))
  else
    Ok (mkRiskAssessment risk_score risk_level confidence contributing_factors).

(* ================================================================= *)
(** ** [app/domain/services/risk_scorer.py]

    The two [logger.info] calls of [calculate_risk] only write a log
    record and are left out. *)

Module RiskScoringService.

Definition _calculate_age_risk (age : Z) : float :=
  if age <? 30 then 0.1
  else if age <? 50 then 0.3
  else if age <? 65 then 0.6
  else 0.9.

Definition _calculate_bmi_risk (bmi : float) : float :=
  if (bmi <? 18.5)%float then 0.4
  else if (bmi <? 25)%float then 0.1
  else if (bmi <? 30)%float then 0.5
  else 0.8.

Definition _calculate_bp_risk (bp : Z) : float :=
  if bp <? 120 then 0.1
  else if bp <? 130 then 0.3
  else if bp <? 140 then 0.6
  else 0.9.

Definition _categorize_risk (score : float) : RiskLevel :=
  if (score <? 0.25)%float then LOW
  else if (score <? 0.5)%float then MEDIUM
  else if (score <? 0.75)%float then HIGH
  else CRITICAL.

Definition _identify_factors (metrics : HealthMetrics)
    (age_risk bmi_risk bp_risk : float) : list string :=
  let factors := [] in
  let factors :=
    if (age_risk >? 0.5)%float then
      factors ++ ["Age (" ++ Py.str_int (age metrics)
                    ++ " years) is a significant risk factor"]%string
    else factors in
  let factors :=
    if (bmi_risk >? 0.5)%float then
      let bmi_category :=
        (if (bmi metrics <? 30)%float then "overweight" else "obese")%string in
      factors ++ ["BMI (" ++ Py.format_1f (bmi metrics)
                    ++ ") indicates " ++ bmi_category]%string
    else factors in
  let factors :=
    if (bp_risk >? 0.5)%float then
      factors ++ ["Blood pressure ("
                    ++ Py.str_int (blood_pressure_systolic metrics)
                    ++ " mmHg) is elevated"]%string
    else factors in
  let factors :=
    match factors with
    | [] => factors ++ ["All metrics within healthy ranges"%string]
    | _ :: _ => factors
    end in
  factors.

Definition calculate_risk (metrics : HealthMetrics) : result RiskAssessment :=
  let age_risk := _calculate_age_risk (age metrics) in
  let bmi_risk := _calculate_bmi_risk (bmi metrics) in
  let bp_risk := _calculate_bp_risk (blood_pressure_systolic metrics) in
  let risk_score :=
    ((age_risk * 0.3) + (bmi_risk * 0.4) + (bp_risk * 0.3))%float in
  let risk_level := _categorize_risk risk_score in
  let factors := _identify_factors metrics age_risk bmi_risk bp_risk in
  RiskAssessment_init (Py.round risk_score 3) risk_level 0.85 factors.

End RiskScoringService.

Import RiskScoringService.

(* ================================================================= *)
(** ** [app/schemas/prediction.py]

    The two pydantic models are records of their fields.  The bounds
    declared with [Field(ge=..., le=...)] are enforced by pydantic, not by
    code of this repository; the field validator [validate_bmi] is. *)

Module Schemas.

Record HealthMetricsRequest := mkHealthMetricsRequest {
  age : Z;
  bmi : float;
  blood_pressure : Z
}.

(** The outcome of a field validator: the value it returns, or the
    message of the [ValueError] it raises. *)
Variant validated :=
  | Returns (v : float)
  | RaisesValueError (message : string).

Definition validate_bmi (v : float) : validated :=
  if (v <? 10)%float || (v >? 60)%float then
    RaisesValueError "BMI must be between 10 and 60"
  else
    Returns (Py.round v 1).

Record RiskAssessmentResponse := mkRiskAssessmentResponse {
  risk_score : float;
  risk_level : string;
  confidence : float;
  contributing_factors : list string
}.

End Schemas.

(* ================================================================= *)
(** ** [app/api/routes/predictions.py]

    What the handler of [POST /predict] does with a request that pydantic
    has parsed: either it returns a body, sent with the status 200 of the
    route decorator, or it raises an [HTTPException].  The scoring service
    it is given holds no state.  The [logger.error] calls are left out. *)

Module Predictions.

Variant outcome :=
  | Response (status_code : Z) (body : Schemas.RiskAssessmentResponse)
  | HTTPException (status_code : Z) (detail : string).

Definition HTTP_200_OK : Z := 200.
Definition HTTP_400_BAD_REQUEST : Z := 400.
Definition HTTP_500_INTERNAL_SERVER_ERROR : Z := 500.

(** The body of the [try]. *)
Definition convert_and_score (request : Schemas.HealthMetricsRequest)
    : result Schemas.RiskAssessmentResponse :=
  match HealthMetrics_init (Schemas.age request) (Schemas.bmi request)
          (Schemas.blood_pressure request) with
  | Raise e => Raise e
  | Ok health_metrics =>
      match calculate_risk health_metrics with
      | Raise e => Raise e
      | Ok risk_assessment =>
          Ok (Schemas.mkRiskAssessmentResponse
                (risk_score risk_assessment)
                (RiskLevel_value (risk_level risk_assessment))
                (confidence risk_assessment)
                (contributing_factors risk_assessment))
      end
  end.

(** [except HealthWatchException] is tried first, then [except Exception],
    which is where a [ValueError] lands. *)
Definition predict_health_risk (request : Schemas.HealthMetricsRequest)
    : outcome :=
  match convert_and_score request with
  | Ok response => Response HTTP_200_OK response
  | Raise (HealthWatch _ message _) =>
      HTTPException HTTP_400_BAD_REQUEST message
  | Raise (ValueError _ _) =>
      HTTPException HTTP_500_INTERNAL_SERVER_ERROR "Internal server error"
  end.

End Predictions.

(* ================================================================= *)
(** ** [app/infrastructure/ml/model_loader.py]

    [load_model] reads the file system and calls [joblib.load].  What
    they answer at the time of a call is a [world]: the text of the path
    [self.model_path / settings.MODEL_NAME], what [model_file.exists()]
    does, and what [joblib.load] does with the file.  Either call can
    raise: [exists] for instance an [OSError] (a name too long, a
    directory that may not be searched), [joblib.load] anything
    unpickling can.  The loader is its attribute [_model].  The logger
    calls are left out. *)

Module ModelLoader.

(** A Python object as far as the loader looks at it: [None] or not. *)
Variant object :=
  | PyNone
  | Object (id : nat).

(** An exception raised by code outside this repository, as far as
    [load_model] tells one from another: its class name, whether the
    class derives from [Exception] (which [KeyboardInterrupt] and
    [SystemExit] do not), and [str(e)]. *)
Record foreign_exception := mkForeign {
  class_name : string;
  is_Exception : bool;
  str : string
}.

(** [model_file.exists()] answers or raises. *)
Variant exists_outcome :=
  | Exists (answer : bool)
  | ExistsRaises (e : foreign_exception).

(** [joblib.load(model_file)] returns an object or raises. *)
Variant joblib_outcome :=
  | Loads (o : object)
  | Fails (e : foreign_exception).

Record world := mkWorld {
  model_file : string;
  model_file_exists : exists_outcome;
  joblib_load : joblib_outcome
}.

Record loader := mkLoader {
  _model : object
}.

(** How a call of [load_model] ends: with a value, with an exception the
    method raises itself, or with an exception of a callee that passes
    through it. *)
Variant outcome :=
  | Returns (o : object)
  | Raises (e : exn)
  | Propagates (e : foreign_exception).

(** [ModelLoader()]. *)
Definition init : loader := mkLoader PyNone.

(** [load_model]: how the call ends, and the loader afterwards.  The
    test [model_file.exists()] stands before the [try], so what it raises
    is not caught; inside the [try], [except Exception] catches what
    derives from [Exception] and nothing else. *)
Definition load_model (w : world) (self : loader) : outcome * loader :=
  match model_file_exists w with
  | ExistsRaises e => (Propagates e, self)
  | Exists false => (Returns PyNone, self)
  | Exists true =>
      match joblib_load w with
      | Loads o => (Returns o, mkLoader o)
      | Fails e =>
          if is_Exception e then
            (Raises (HealthWatch ModelLoadError "Failed to load ML model"
                       [("model_path", model_file w);
                        ("error", str e)]%string),
             self)
          else
            (Propagates e, self)
      end
  end.

Definition get_model (self : loader) : object := _model self.

Definition is_model_loaded (self : loader) : bool :=
  match _model self with
  | PyNone => false
  | Object _ => true
  end.

(** The loader after a sequence of [load_model] calls, one per world,
    however each call ended. *)
Fixpoint after_loads (ws : list world) (self : loader) : loader :=
  match ws with
  | [] => self
  | w :: ws' => after_loads ws' (snd (load_model w self))
  end.

End ModelLoader.

(* ================================================================= *)
(** ** [app/core/logging.py]

    [JSONFormatter.format] builds the dictionary [log_data] and hands it
    to [json.dumps]; the dictionary is modelled, the text [json.dumps]
    makes of it is not.  A Python [dict] keeps its keys in insertion
    order, each key once: it is a list of pairs. *)

Module Logging.

Variant field_value :=
  | Str (s : string)
  | Int (n : Z)
  | Float (x : float).

Definition dict := list (string * field_value).

(** [d.get(k)]. *)
Fixpoint get (d : dict) (k : string) : option field_value :=
  match d with
  | [] => None
  | (k', v') :: d' => if String.eqb k' k then Some v' else get d' k
  end.

(** [d[k] = v]: an existing key keeps its place, a new key goes last. *)
Fixpoint set_item (d : dict) (k : string) (v : field_value) : dict :=
  match d with
  | [] => [(k, v)]
  | (k', v') :: d' =>
      if String.eqb k' k then (k', v) :: d' else (k', v') :: set_item d' k v
  end.

(** [d.update(e)]. *)
Definition update (d e : dict) : dict :=
  fold_left (fun acc kv => set_item acc (fst kv) (snd kv)) e d.

(** The attributes of a [LogRecord] that [format] reads: [message] is
    [record.getMessage()], [exc_text] is
    [self.formatException(record.exc_info)] when [exc_info] is set, and
    [extra_data] is the attribute of that name when the record has one. *)
Record LogRecord := mkLogRecord {
  levelname : string;
  name : string;
  message : string;
  module : string;
  funcName : string;
  lineno : Z;
  exc_text : option string;
  extra_data : option dict
}.

(** [log_data] as [format] passes it to [json.dumps]; [timestamp] is
    [datetime.utcnow().isoformat()]. *)
Definition log_data (timestamp : string) (record : LogRecord) : dict :=
  let log_data :=
    [("timestamp", Str timestamp);
     ("level", Str (levelname record));
     ("logger", Str (name record));
     ("message", Str (message record));
     ("module", Str (module record));
     ("function", Str (funcName record));
     ("line", Int (lineno record))]%string in
  let log_data :=
    match exc_text record with
    | Some text => set_item log_data "exception" (Str text)
    | None => log_data
    end in
  let extra_data :=
    match extra_data record with
    | Some d => d
    | None => []
    end in
  let log_data :=
    match extra_data with
    | [] => log_data
    | _ :: _ => update log_data extra_data
    end in
  log_data.

(** The two [logger.info] calls of [calculate_risk], in order: the
    message and the [extra_data] of each. *)
Definition calculate_risk_log (metrics : HealthMetrics)
    : list (string * dict) :=
  let age_risk := _calculate_age_risk (age metrics) in
  let bmi_risk := _calculate_bmi_risk (bmi metrics) in
  let bp_risk := _calculate_bp_risk (blood_pressure_systolic metrics) in
  let risk_score :=
    ((age_risk * 0.3) + (bmi_risk * 0.4) + (bp_risk * 0.3))%float in
  let risk_level := _categorize_risk risk_score in
  [("Calculating risk",
    [("age", Int (age metrics));
     ("bmi", Float (bmi metrics));
     ("bp", Int (blood_pressure_systolic metrics))]);
   ("Risk calculated",
    [("risk_score", Float risk_score);
     ("risk_level", Str (RiskLevel_value risk_level))])]%string.

End Logging.

(* ================================================================= *)
(** ** Notions the properties are stated with *)

(** The domain constraints of the metrics: 0 <= age <= 120,
    10 <= bmi <= 60, 60 <= systolic blood pressure <= 250.  The two
    comparisons on [bmi] are binary64 comparisons, so a valid [bmi] is
    not a NaN. *)
Definition valid_metrics (m : HealthMetrics) : Prop :=
  (0 <= age m <= 120) /\
  ((10 <=? bmi m)%float = true /\ (bmi m <=? 60)%float = true) /\
  (60 <= blood_pressure_systolic m <= 250).

(** The three component risks of [calculate_risk] and the weighted score
    it computes from them, before any rounding. *)
Definition age_risk_of (m : HealthMetrics) : float :=
  _calculate_age_risk (age m).
Definition bmi_risk_of (m : HealthMetrics) : float :=
  _calculate_bmi_risk (bmi m).
Definition bp_risk_of (m : HealthMetrics) : float :=
  _calculate_bp_risk (blood_pressure_systolic m).

Definition weighted (age_risk bmi_risk bp_risk : float) : float :=
  ((age_risk * 0.3) + (bmi_risk * 0.4) + (bp_risk * 0.3))%float.

Definition weighted_score (m : HealthMetrics) : float :=
  weighted (age_risk_of m) (bmi_risk_of m) (bp_risk_of m).

(** The order LOW < MEDIUM < HIGH < CRITICAL. *)
Definition rank (l : RiskLevel) : Z :=
  match l with
  | LOW => 0
  | MEDIUM => 1
  | HIGH => 2
  | CRITICAL => 3
  end.

(** The factor strings, one per metric, and the sentinel. *)
Definition age_factor (m : HealthMetrics) : string :=
  "Age (" ++ Py.str_int (age m) ++ " years) is a significant risk factor".
Definition bmi_factor_as (category : string) (m : HealthMetrics) : string :=
  "BMI (" ++ Py.format_1f (bmi m) ++ ") indicates " ++ category.
Definition bmi_factor (m : HealthMetrics) : string :=
  bmi_factor_as (if (bmi m <? 30)%float then "overweight" else "obese") m.
Definition bp_factor (m : HealthMetrics) : string :=
  "Blood pressure (" ++ Py.str_int (blood_pressure_systolic m)
    ++ " mmHg) is elevated".
Definition healthy_sentinel : string := "All metrics within healthy ranges".

(** The factor explanation as the specification words it: of the three
    candidates, in the order age, BMI, blood pressure, keep those whose
    component risk exceeds 0.5; if none is left, the sentinel alone. *)
Definition significant (risk : float) : bool := (risk >? 0.5)%float.

Definition expected_factors (m : HealthMetrics)
    (age_risk bmi_risk bp_risk : float) : list string :=
  let candidates :=
    [(age_risk, age_factor m); (bmi_risk, bmi_factor m);
     (bp_risk, bp_factor m)] in
  match map snd (filter (fun c => significant (fst c)) candidates) with
  | [] => [healthy_sentinel]
  | kept => kept
  end.

(** A factor string that is about the BMI. *)
Definition mentions_bmi (s : string) : bool := String.prefix "BMI (" s.

(** Two floats with the same sign, mantissa and exponent (not Python's
    [==], which equates the two zeros and no NaN). *)
Definition same_bits (x y : float) : bool :=
  match x, y with
  | S754_zero s1, S754_zero s2 => Bool.eqb s1 s2
  | S754_infinity s1, S754_infinity s2 => Bool.eqb s1 s2
  | S754_nan, S754_nan => true
  | S754_finite s1 m1 e1, S754_finite s2 m2 e2 =>
      Bool.eqb s1 s2 && Pos.eqb m1 m2 && Z.eqb e1 e2
  | _, _ => false
  end.

(** The number of tenths nearest to a finite float, ties to even: the
    digits [round(v, 1)] and [f"{v:.1f}"] are made of. *)
Definition tenths (v : float) : Z :=
  match v with
  | S754_finite _ m e => decimal_digits m e 1
  | _ => 0
  end.

(** The BMI ladder read on a number of tenths. *)
Definition bmi_risk_of_tenths (q : Z) : float :=
  if q <? 185 then 0.4
  else if q <? 250 then 0.1
  else if q <? 300 then 0.5
  else 0.8.

(** What must hold of the one-decimal float with [q] tenths. *)
Definition tenth_ok (q : Z) : bool :=
  let w := decimal q 1 in
  (10 <=? w)%float && (w <=? 60)%float && valid_binary prec emax w &&
  same_bits (Py.round w 1) w &&
  String.eqb (Py.format_1f w)
    (Py.str_int (q / 10) ++ "." ++ Py.str_int (q mod 10)) &&
  same_bits (_calculate_bmi_risk w) (bmi_risk_of_tenths q).

(** The fields [format] writes before any extra field. *)
Definition standard_fields (timestamp : string) (record : Logging.LogRecord)
    : Logging.dict :=
  List.app
    [("timestamp", Logging.Str timestamp);
     ("level", Logging.Str (Logging.levelname record));
     ("logger", Logging.Str (Logging.name record));
     ("message", Logging.Str (Logging.message record));
     ("module", Logging.Str (Logging.module record));
     ("function", Logging.Str (Logging.funcName record));
     ("line", Logging.Int (Logging.lineno record))]%string
    match Logging.exc_text record with
    | Some text => [("exception"%string, Logging.Str text)]
    | None => []
    end.

Definition keys (d : Logging.dict) : list string := map fst d.

Definition extra_of (record : Logging.LogRecord) : Logging.dict :=
  match Logging.extra_data record with
  | Some d => d
  | None => []
  end.

(* ================================================================= *)
(** ** The order of binary64 numbers *)

Lemma SFcompare_antisym (x y : float) :
  SFcompare y x = option_map CompOpp (SFcompare x y).
Proof.
  destruct x as [[]|[]| |[] mx ex], y as [[]|[]| |[] my ey];
    simpl; try reflexivity.
  all: rewrite (Z.compare_antisym ex ey);
    destruct (ex ?= ey); simpl; try reflexivity;
    change (Pos.compare_cont Eq my mx) with (Pos.compare my mx);
    change (Pos.compare_cont Eq mx my) with (Pos.compare mx my);
    rewrite (Pos.compare_antisym mx my); reflexivity.
Qed.

Ltac order_cases :=
  repeat match goal with
  | H : context [Z.compare ?a ?b] |- _ => destruct (Z.compare_spec a b)
  | |- context [Z.compare ?a ?b] => destruct (Z.compare_spec a b)
  | H : context [Pos.compare ?a ?b] |- _ => destruct (Pos.compare_spec a b)
  | |- context [Pos.compare ?a ?b] => destruct (Pos.compare_spec a b)
  end.

Lemma SFcompare_trans (x y z : float) (c1 c2 : comparison) :
  SFcompare x y = Some c1 -> SFcompare y z = Some c2 ->
  c1 <> Gt -> c2 <> Gt ->
  SFcompare x z = Some match c1 with Eq => c2 | _ => Lt end.
Proof.
  intros H1 H2 N1 N2.
  destruct x as [[]|[]| |[] mx ex], y as [[]|[]| |[] my ey],
           z as [[]|[]| |[] mz ez];
    simpl in *; try discriminate;
    injection H1 as H1; injection H2 as H2; subst c1 c2; try congruence;
    try reflexivity.
  all: change (Pos.compare_cont Eq) with Pos.compare in *.
  all: f_equal.
  all: order_cases; simpl in *; try congruence; try lia.
Qed.

Lemma leb_not_nan (x y : float) :
  (x <=? y)%float = true -> is_nan x = false /\ is_nan y = false.
Proof.
  unfold leb, SFleb.
  destruct x as [[]|[]| |[] mx ex], y as [[]|[]| |[] my ey]; simpl;
    intros H; (discriminate H || (split; reflexivity)).
Qed.

Lemma leb_not_ltb (x y : float) :
  (x <=? y)%float = true -> (y <? x)%float = false.
Proof.
  unfold leb, ltb, SFleb, SFltb. rewrite (SFcompare_antisym x y).
  destruct (SFcompare x y) as [[]|]; simpl; intros H;
    (discriminate H || reflexivity).
Qed.

Lemma not_ltb_leb (x y : float) :
  is_nan x = false -> is_nan y = false ->
  (x <? y)%float = false -> (y <=? x)%float = true.
Proof.
  unfold leb, ltb, SFleb, SFltb. rewrite (SFcompare_antisym x y).
  destruct x as [[]|[]| |[] mx ex], y as [[]|[]| |[] my ey]; simpl;
    intros Hx Hy H; try discriminate; try reflexivity.
  all: destruct (ex ?= ey); simpl in *; try discriminate; try reflexivity;
    destruct (Pos.compare_cont Eq mx my); simpl in *;
    try discriminate; reflexivity.
Qed.

Lemma leb_trans (x y z : float) :
  (x <=? y)%float = true -> (y <=? z)%float = true -> (x <=? z)%float = true.
Proof.
  unfold leb, SFleb. intros H1 H2.
  destruct (SFcompare x y) as [c1|] eqn:E1; [|discriminate].
  destruct (SFcompare y z) as [c2|] eqn:E2; [|discriminate].
  rewrite (SFcompare_trans x y z c1 c2 E1 E2)
    by (destruct c1, c2; discriminate).
  destruct c1, c2; try discriminate; reflexivity.
Qed.

Lemma leb_ltb_trans (x y z : float) :
  (x <=? y)%float = true -> (y <? z)%float = true -> (x <? z)%float = true.
Proof.
  unfold leb, ltb, SFleb, SFltb. intros H1 H2.
  destruct (SFcompare x y) as [c1|] eqn:E1; [|discriminate].
  destruct (SFcompare y z) as [c2|] eqn:E2; [|discriminate].
  rewrite (SFcompare_trans x y z c1 c2 E1 E2)
    by (destruct c1, c2; discriminate).
  destruct c1, c2; try discriminate; reflexivity.
Qed.

Lemma ltb_leb_trans (x y z : float) :
  (x <? y)%float = true -> (y <=? z)%float = true -> (x <? z)%float = true.
Proof.
  unfold leb, ltb, SFleb, SFltb. intros H1 H2.
  destruct (SFcompare x y) as [c1|] eqn:E1; [|discriminate].
  destruct (SFcompare y z) as [c2|] eqn:E2; [|discriminate].
  rewrite (SFcompare_trans x y z c1 c2 E1 E2)
    by (destruct c1, c2; discriminate).
  destruct c1, c2; try discriminate; reflexivity.
Qed.

(** Below a threshold [c] means not at or above any threshold [d >= c]. *)
Lemma leb_above (c d x : float) :
  (c <=? d)%float = true -> (d <=? x)%float = true -> (x <? c)%float = false.
Proof.
  intros Hcd Hdx. apply leb_not_ltb. exact (leb_trans c d x Hcd Hdx).
Qed.

(* ================================================================= *)
(** ** The literals of the engine *)

(** The bits of some of the literals: [0.1] is
    7205759403792794 * 2^-56, a little above one tenth, and [0.25] is
    exactly 2^-2. *)
Lemma literal_bits :
  0.1%float = S754_finite false 7205759403792794 (-56) /\
  0.3%float = S754_finite false 5404319552844595 (-54) /\
  0.4%float = S754_finite false 7205759403792794 (-54) /\
  0.25%float = S754_finite false 4503599627370496 (-54) /\
  0.85%float = S754_finite false 7656119366529843 (-53) /\
  18.5%float = S754_finite false 5207287069147136 (-48) /\
  30%float = S754_finite false 8444249301319680 (-48).
Proof. vm_compute. repeat split. Qed.

(** Every literal of the engine is a canonical binary64 number. *)
Lemma literals_are_binary64 :
  forallb (valid_binary prec emax)
    [0.1; 0.3; 0.4; 0.5; 0.6; 0.8; 0.9; 0.25; 0.75; 0.85;
     10; 18.5; 25; 30; 60]%float = true.
Proof. vm_compute. reflexivity. Qed.

(* ================================================================= *)
(** ** The threshold ladders *)

Lemma threshold_order :
  (18.5 <=? 25)%float = true /\ (18.5 <=? 30)%float = true /\
  (25 <=? 30)%float = true /\ (0.25 <=? 0.5)%float = true /\
  (0.25 <=? 0.75)%float = true /\ (0.5 <=? 0.75)%float = true.
Proof. vm_compute. repeat split. Qed.

Lemma age_risk_bands (a : Z) :
  (a < 30 -> _calculate_age_risk a = 0.1%float) /\
  (30 <= a < 50 -> _calculate_age_risk a = 0.3%float) /\
  (50 <= a < 65 -> _calculate_age_risk a = 0.6%float) /\
  (65 <= a -> _calculate_age_risk a = 0.9%float).
Proof.
  unfold _calculate_age_risk.
  destruct (Z.ltb_spec a 30), (Z.ltb_spec a 50), (Z.ltb_spec a 65);
    repeat split; intros; (reflexivity || lia).
Qed.

Lemma bp_risk_bands (p : Z) :
  (p < 120 -> _calculate_bp_risk p = 0.1%float) /\
  (120 <= p < 130 -> _calculate_bp_risk p = 0.3%float) /\
  (130 <= p < 140 -> _calculate_bp_risk p = 0.6%float) /\
  (140 <= p -> _calculate_bp_risk p = 0.9%float).
Proof.
  unfold _calculate_bp_risk.
  destruct (Z.ltb_spec p 120), (Z.ltb_spec p 130), (Z.ltb_spec p 140);
    repeat split; intros; (reflexivity || lia).
Qed.

Lemma bmi_risk_bands (b : float) :
  ((b <? 18.5)%float = true -> _calculate_bmi_risk b = 0.4%float) /\
  ((18.5 <=? b)%float = true -> (b <? 25)%float = true ->
     _calculate_bmi_risk b = 0.1%float) /\
  ((25 <=? b)%float = true -> (b <? 30)%float = true ->
     _calculate_bmi_risk b = 0.5%float) /\
  ((30 <=? b)%float = true -> _calculate_bmi_risk b = 0.8%float).
Proof.
  destruct threshold_order as (H1 & H2 & H3 & _).
  unfold _calculate_bmi_risk. repeat split.
  - intros ->. reflexivity.
  - intros L U. rewrite (leb_not_ltb _ _ L), U. reflexivity.
  - intros L U.
    rewrite (leb_above _ _ _ H1 L), (leb_not_ltb _ _ L), U. reflexivity.
  - intros L.
    rewrite (leb_above _ _ _ H2 L), (leb_above _ _ _ H3 L),
      (leb_not_ltb _ _ L).
    reflexivity.
Qed.

Lemma categorize_bands (score : float) :
  ((score <? 0.25)%float = true -> _categorize_risk score = LOW) /\
  ((0.25 <=? score)%float = true -> (score <? 0.5)%float = true ->
     _categorize_risk score = MEDIUM) /\
  ((0.5 <=? score)%float = true -> (score <? 0.75)%float = true ->
     _categorize_risk score = HIGH) /\
  ((score <? 0.75)%float = false -> _categorize_risk score = CRITICAL).
Proof.
  destruct threshold_order as (_ & _ & _ & H1 & H2 & H3).
  unfold _categorize_risk. repeat split.
  - intros ->. reflexivity.
  - intros L U. rewrite (leb_not_ltb _ _ L), U. reflexivity.
  - intros L U.
    rewrite (leb_above _ _ _ H1 L), (leb_not_ltb _ _ L), U. reflexivity.
  - intros U.
    destruct (score <? 0.25)%float eqn:E1.
    { rewrite (ltb_leb_trans _ _ _ E1 H2) in U. discriminate U. }
    destruct (score <? 0.5)%float eqn:E2.
    { rewrite (ltb_leb_trans _ _ _ E2 H3) in U. discriminate U. }
    rewrite U. reflexivity.
Qed.

(** C3.  Each component risk is a ladder of [<] tests tried in ascending
    order, the first band that matches giving the weight: age below 30
    gives 0.1, from 30 up to (not including) 50 gives 0.3, from 50 up to 65
    gives 0.6, 65 and above gives 0.9; BMI below 18.5 gives 0.4, from 18.5
    up to 25 gives 0.1, from 25 up to 30 gives 0.5, 30 and above gives 0.8;
    systolic pressure below 120 gives 0.1, from 120 up to 130 gives 0.3,
    from 130 up to 140 gives 0.6, 140 and above gives 0.9.  Each threshold
    itself belongs to the band above it: age 29 gives 0.1 and age 30 gives
    0.3, and likewise at BMI 18.5, 25, 30 and pressure 120, 130, 140. *)
Theorem component_risk_ladders :
  (forall a : Z,
     (a < 30 -> _calculate_age_risk a = 0.1%float) /\
     (30 <= a < 50 -> _calculate_age_risk a = 0.3%float) /\
     (50 <= a < 65 -> _calculate_age_risk a = 0.6%float) /\
     (65 <= a -> _calculate_age_risk a = 0.9%float)) /\
  (forall b : float,
     ((b <? 18.5)%float = true -> _calculate_bmi_risk b = 0.4%float) /\
     ((18.5 <=? b)%float = true -> (b <? 25)%float = true ->
        _calculate_bmi_risk b = 0.1%float) /\
     ((25 <=? b)%float = true -> (b <? 30)%float = true ->
        _calculate_bmi_risk b = 0.5%float) /\
     ((30 <=? b)%float = true -> _calculate_bmi_risk b = 0.8%float)) /\
  (forall p : Z,
     (p < 120 -> _calculate_bp_risk p = 0.1%float) /\
     (120 <= p < 130 -> _calculate_bp_risk p = 0.3%float) /\
     (130 <= p < 140 -> _calculate_bp_risk p = 0.6%float) /\
     (140 <= p -> _calculate_bp_risk p = 0.9%float)) /\
  (_calculate_age_risk 29 = 0.1%float /\ _calculate_age_risk 30 = 0.3%float /\
   _calculate_age_risk 49 = 0.3%float /\ _calculate_age_risk 50 = 0.6%float /\
   _calculate_age_risk 64 = 0.6%float /\ _calculate_age_risk 65 = 0.9%float) /\
  (_calculate_bmi_risk 18.4 = 0.4%float /\ _calculate_bmi_risk 18.5 = 0.1%float /\
   _calculate_bmi_risk 24.9 = 0.1%float /\ _calculate_bmi_risk 25 = 0.5%float /\
   _calculate_bmi_risk 29.9 = 0.5%float /\ _calculate_bmi_risk 30 = 0.8%float) /\
  (_calculate_bp_risk 119 = 0.1%float /\ _calculate_bp_risk 120 = 0.3%float /\
   _calculate_bp_risk 129 = 0.3%float /\ _calculate_bp_risk 130 = 0.6%float /\
   _calculate_bp_risk 139 = 0.6%float /\ _calculate_bp_risk 140 = 0.9%float).
Proof.
  split; [exact age_risk_bands|].
  split; [exact bmi_risk_bands|].
  split; [exact bp_risk_bands|].
  vm_compute. repeat split.
Qed.

Lemma component_risk_ladders_witness :
  _calculate_age_risk 40 = 0.3%float /\
  _calculate_bmi_risk 27.5 = 0.5%float /\
  _calculate_bp_risk 150 = 0.9%float.
Proof.
  destruct component_risk_ladders as (HA & HB & HP & _).
  split; [|split].
  - apply (HA 40). lia.
  - apply (HB 27.5%float); vm_compute; reflexivity.
  - apply (HP 150). lia.
Defined.

(** C4.  The mapping from score to level is a total function onto the four
    levels, tried in ascending order with the first match winning and each
    threshold belonging to the band above it: below 0.25 is LOW, from 0.25
    up to (not including) 0.5 is MEDIUM, from 0.5 up to 0.75 is HIGH, and
    every other score is CRITICAL. *)
Theorem categorize_risk_total :
  (forall score : float,
     ((score <? 0.25)%float = true -> _categorize_risk score = LOW) /\
     ((0.25 <=? score)%float = true -> (score <? 0.5)%float = true ->
        _categorize_risk score = MEDIUM) /\
     ((0.5 <=? score)%float = true -> (score <? 0.75)%float = true ->
        _categorize_risk score = HIGH) /\
     ((score <? 0.75)%float = false -> _categorize_risk score = CRITICAL)) /\
  (forall score : float,
     (score <? 0.25)%float = true \/
     ((0.25 <=? score)%float = true /\ (score <? 0.5)%float = true) \/
     ((0.5 <=? score)%float = true /\ (score <? 0.75)%float = true) \/
     (score <? 0.75)%float = false) /\
  (_categorize_risk 0.249 = LOW /\ _categorize_risk 0.25 = MEDIUM /\
   _categorize_risk 0.499 = MEDIUM /\ _categorize_risk 0.5 = HIGH /\
   _categorize_risk 0.749 = HIGH /\ _categorize_risk 0.75 = CRITICAL /\
   _categorize_risk 1 = CRITICAL /\ _categorize_risk 0 = LOW).
Proof.
  split; [exact categorize_bands|]. split.
  - intros score.
    destruct (score <? 0.75)%float eqn:E3; [|now right; right; right].
    assert (N : is_nan score = false) by (destruct score; easy).
    destruct (score <? 0.25)%float eqn:E1; [now left|].
    right. apply not_ltb_leb in E1; [|exact N|reflexivity].
    destruct (score <? 0.5)%float eqn:E2; [now left|].
    right. left. apply not_ltb_leb in E2; [|exact N|reflexivity].
    now split.
  - vm_compute. repeat split.
Qed.

Lemma categorize_risk_total_witness :
  _categorize_risk 0.3 = MEDIUM /\ _categorize_risk 0.86 = CRITICAL.
Proof.
  destruct categorize_risk_total as (H & _).
  split.
  - apply (H 0.3%float); vm_compute; reflexivity.
  - apply (H 0.86%float); vm_compute; reflexivity.
Defined.

(* ================================================================= *)
(** ** The weighted score *)

Lemma age_risk_cases (a : Z) :
  _calculate_age_risk a = 0.1%float \/ _calculate_age_risk a = 0.3%float \/
  _calculate_age_risk a = 0.6%float \/ _calculate_age_risk a = 0.9%float.
Proof.
  unfold _calculate_age_risk.
  destruct (a <? 30); [now left|]. destruct (a <? 50); [now right; left|].
  destruct (a <? 65); [now right; right; left|now right; right; right].
Qed.

Lemma bmi_risk_cases (b : float) :
  _calculate_bmi_risk b = 0.4%float \/ _calculate_bmi_risk b = 0.1%float \/
  _calculate_bmi_risk b = 0.5%float \/ _calculate_bmi_risk b = 0.8%float.
Proof.
  unfold _calculate_bmi_risk.
  destruct (b <? 18.5)%float; [now left|].
  destruct (b <? 25)%float; [now right; left|].
  destruct (b <? 30)%float; [now right; right; left|now right; right; right].
Qed.

Lemma bp_risk_cases (p : Z) :
  _calculate_bp_risk p = 0.1%float \/ _calculate_bp_risk p = 0.3%float \/
  _calculate_bp_risk p = 0.6%float \/ _calculate_bp_risk p = 0.9%float.
Proof.
  unfold _calculate_bp_risk.
  destruct (p <? 120); [now left|]. destruct (p <? 130); [now right; left|].
  destruct (p <? 140); [now right; right; left|now right; right; right].
Qed.

(** Splits a goal about the three component risks of [m] into the 64
    combinations of weights the ladders can return. *)
Ltac risk_cases m :=
  unfold weighted_score, age_risk_of, bmi_risk_of, bp_risk_of in *;
  let E := fresh "E" in
  destruct (age_risk_cases (age m)) as [E|[E|[E|E]]]; rewrite E in *; clear E;
  destruct (bmi_risk_cases (bmi m)) as [E|[E|[E|E]]]; rewrite E in *; clear E;
  destruct (bp_risk_cases (blood_pressure_systolic m)) as [E|[E|[E|E]]];
  rewrite E in *; clear E.

Lemma calculate_risk_eq (m : HealthMetrics) :
  calculate_risk m =
  RiskAssessment_init (Py.round (weighted_score m) 3)
    (_categorize_risk (weighted_score m)) 0.85
    (_identify_factors m (age_risk_of m) (bmi_risk_of m) (bp_risk_of m)).
Proof. reflexivity. Qed.

(** The rounded score of any metrics passes the range check of
    [RiskAssessment], and so does the constant confidence. *)
Lemma rounded_score_in_range (m : HealthMetrics) :
  ((0 <=? Py.round (weighted_score m) 3)%float &&
   (Py.round (weighted_score m) 3 <=? 1)%float) = true.
Proof. risk_cases m; vm_compute; reflexivity. Qed.

Lemma confidence_in_range :
  ((0 <=? 0.85)%float && (0.85 <=? 1)%float) = true.
Proof. vm_compute. reflexivity. Qed.

Lemma calculate_risk_returns (m : HealthMetrics) :
  calculate_risk m =
  Ok (mkRiskAssessment (Py.round (weighted_score m) 3)
        (_categorize_risk (weighted_score m)) 0.85
        (_identify_factors m (age_risk_of m) (bmi_risk_of m) (bp_risk_of m))).
Proof.
  rewrite calculate_risk_eq. unfold RiskAssessment_init.
  rewrite rounded_score_in_range, confidence_in_range. reflexivity.
Qed.


(** The rounded score is the decimal literal of the exact weighted average
    of the three weights, taken as tenths. *)
Lemma rounded_score_exact (m : HealthMetrics) :
  exists a b c : Z,
    age_risk_of m = decimal a 1 /\ bmi_risk_of m = decimal b 1 /\
    bp_risk_of m = decimal c 1 /\
    Py.round (weighted_score m) 3 = decimal (3 * a + 4 * b + 3 * c) 2.
Proof.
  risk_cases m;
    match goal with
    | |- exists a b c, decimal ?x 1 = _ /\ decimal ?y 1 = _ /\ decimal ?z 1 = _ /\ _ =>
        exists x, y, z; repeat split; vm_compute; reflexivity
    end.
Qed.

(** Reduces the projections of the two records and nothing else (the
    float literals stay folded). *)
Ltac fields :=
  cbn [risk_score risk_level confidence contributing_factors
       age bmi blood_pressure_systolic] in *.

(* ================================================================= *)
(** ** Rounding and categorization *)



(* ================================================================= *)
(** ** The weighted combination and the ranges of the result *)

(** C5.  The reported score is the weighted sum
    0.3 * ageRisk + 0.4 * bmiRisk + 0.3 * bpRisk rounded to 3 decimal
    places, which is exactly the decimal value of that weighted average;
    the weights sum to 1.0; age 25, BMI 22, pressure 110 gives the score
    0.1, the level LOW and the sentinel alone; age 70, BMI 32, pressure 145
    gives 0.86, CRITICAL and the three factors in the order age, BMI,
    blood pressure. *)
Theorem weighted_combination :
  (forall m : HealthMetrics,
     valid_metrics m ->
     exists r,
       calculate_risk m = Ok r /\
       risk_score r =
         Py.round ((age_risk_of m * 0.3) + (bmi_risk_of m * 0.4)
                   + (bp_risk_of m * 0.3))%float 3 /\
       exists a b c : Z,
         age_risk_of m = decimal a 1 /\ bmi_risk_of m = decimal b 1 /\
         bp_risk_of m = decimal c 1 /\
         risk_score r = decimal (3 * a + 4 * b + 3 * c) 2) /\
  (0.3 + 0.4 + 0.3)%float = 1%float /\
  calculate_risk (mkHealthMetrics 25 22 110) =
    Ok (mkRiskAssessment 0.1 LOW 0.85
          ["All metrics within healthy ranges"%string]) /\
  calculate_risk (mkHealthMetrics 70 32 145) =
    Ok (mkRiskAssessment 0.86 CRITICAL 0.85
          ["Age (70 years) is a significant risk factor"%string;
           "BMI (32.0) indicates obese"%string;
           "Blood pressure (145 mmHg) is elevated"%string]).
Proof.
  split; [|split; [|split]]; [|vm_compute; reflexivity..].
  intros m _. eexists. split; [apply calculate_risk_returns|]. fields.
  split; [reflexivity|]. apply rounded_score_exact.
Qed.

Lemma weighted_combination_witness :
  exists r,
    calculate_risk (mkHealthMetrics 45 26.5 130) = Ok r /\
    risk_score r = 0.47%float.
Proof.
  destruct weighted_combination as (H & _).
  destruct (H (mkHealthMetrics 45 26.5 130)) as (r & Hr & Hs & _).
  - unfold valid_metrics; fields.
    split; [lia|]. split; [|lia]. split; vm_compute; reflexivity.
  - exists r. split; [exact Hr|]. rewrite Hs. vm_compute. reflexivity.
Defined.

(** C7.  For every valid metrics the returned score lies in the closed
    interval from 0 to 1, and the confidence is the constant 0.85, which
    lies in it too. *)
Theorem score_and_confidence_bounds (m : HealthMetrics) :
  valid_metrics m ->
  exists r,
    calculate_risk m = Ok r /\
    (0 <=? risk_score r)%float = true /\ (risk_score r <=? 1)%float = true /\
    confidence r = 0.85%float /\
    (0 <=? confidence r)%float = true /\ (confidence r <=? 1)%float = true.
Proof.
  intros _. eexists. split; [apply calculate_risk_returns|]. fields.
  pose proof (rounded_score_in_range m) as H.
  apply andb_true_iff in H. destruct H as [H0 H1].
  repeat split; try assumption; vm_compute; reflexivity.
Qed.

Lemma score_and_confidence_bounds_witness :
  exists r,
    calculate_risk (mkHealthMetrics 45 26.5 130) = Ok r /\
    (0 <=? risk_score r)%float = true /\ (risk_score r <=? 1)%float = true /\
    confidence r = 0.85%float /\
    (0 <=? confidence r)%float = true /\ (confidence r <=? 1)%float = true.
Proof.
  apply (score_and_confidence_bounds (mkHealthMetrics 45 26.5 130)).
  unfold valid_metrics; fields.
  split; [lia|]. split; [|lia]. split; vm_compute; reflexivity.
Defined.

(** C9.  For every valid metrics [calculate_risk] returns a
    [RiskAssessment] and raises nothing: the two range checks of the
    [RiskAssessment] constructor are never taken. *)
Theorem calculate_risk_total (m : HealthMetrics) :
  valid_metrics m ->
  (exists r, calculate_risk m = Ok r) /\
  (forall e, calculate_risk m <> Raise e) /\
  negb ((0 <=? Py.round (weighted_score m) 3)%float &&
        (Py.round (weighted_score m) 3 <=? 1)%float) = false /\
  negb ((0 <=? 0.85)%float && (0.85 <=? 1)%float) = false.
Proof.
  intros _. split; [|split; [|split]].
  - eexists. apply calculate_risk_returns.
  - intros e. rewrite calculate_risk_returns. discriminate.
  - rewrite rounded_score_in_range. reflexivity.
  - rewrite confidence_in_range. reflexivity.
Qed.

Lemma calculate_risk_total_witness :
  exists r, calculate_risk (mkHealthMetrics 45 26.5 130) = Ok r.
Proof.
  apply (calculate_risk_total (mkHealthMetrics 45 26.5 130)).
  unfold valid_metrics; fields.
  split; [lia|]. split; [|lia]. split; vm_compute; reflexivity.
Defined.

(* ================================================================= *)
(** ** Construction of the metrics *)

Lemma HealthMetrics_init_cases (a : Z) (b : float) (p : Z) :
  (HealthMetrics_init a b p = Ok (mkHealthMetrics a b p) /\
   0 <= a <= 120 /\ (b <? 10)%float = false /\ (b >? 60)%float = false /\
   60 <= p <= 250) \/
  (HealthMetrics_init a b p = Raise (ValueError "Invalid age: " (Py.Int a)) /\
   (a < 0 \/ 120 < a)) \/
  (HealthMetrics_init a b p = Raise (ValueError "Invalid BMI: " (Py.Float b)) /\
   ((b <? 10)%float = true \/ (b >? 60)%float = true)) \/
  (HealthMetrics_init a b p =
     Raise (ValueError "Invalid blood pressure: " (Py.Int p)) /\
   (p < 60 \/ 250 < p)).
Proof.
  unfold HealthMetrics_init.
  destruct (Z.ltb_spec a 0); cbn [orb];
    [right; left; split; [reflexivity|lia]|].
  destruct (Z.gtb_spec a 120); cbn [orb];
    [right; left; split; [reflexivity|lia]|].
  destruct (b <? 10)%float eqn:B1; cbn [orb];
    [right; right; left; split; [reflexivity|now left]|].
  destruct (b >? 60)%float eqn:B2; cbn [orb];
    [right; right; left; split; [reflexivity|now right]|].
  destruct (Z.ltb_spec p 60); cbn [orb];
    [right; right; right; split; [reflexivity|lia]|].
  destruct (Z.gtb_spec p 250); cbn [orb];
    [right; right; right; split; [reflexivity|lia]|].
  left. repeat split; lia.
Qed.

Lemma HealthMetrics_init_valid (a : Z) (b : float) (p : Z) :
  0 <= a <= 120 -> (10 <=? b)%float = true -> (b <=? 60)%float = true ->
  60 <= p <= 250 ->
  HealthMetrics_init a b p = Ok (mkHealthMetrics a b p).
Proof.
  intros Ha Hb1 Hb2 Hp. unfold HealthMetrics_init, gtb.
  assert (E1 : (a <? 0) = false) by (apply Z.ltb_ge; lia).
  assert (E2 : (a >? 120) = false) by (rewrite Z.gtb_ltb; apply Z.ltb_ge; lia).
  assert (E3 : (p <? 60) = false) by (apply Z.ltb_ge; lia).
  assert (E4 : (p >? 250) = false) by (rewrite Z.gtb_ltb; apply Z.ltb_ge; lia).
  rewrite E1, E2, E3, E4.
  fold (ltb b 10). fold (ltb 60 b).
  rewrite (leb_not_ltb _ _ Hb1), (leb_not_ltb _ _ Hb2). reflexivity.
Qed.

(** C2.  Construction takes the three raw values and either produces the
    instance holding them or fails, and where the claim has it fail with
    [InvalidInputError] the code raises Python's built-in [ValueError]:
    [HealthMetrics(age=-1, bmi=22.0, blood_pressure_systolic=110)] raises
    [ValueError("Invalid age: -1")], and no input at all makes
    construction raise an [InvalidInputError], the class that
    [exceptions.py] declares as raised when input validation fails.  What
    is raised names the field of the first violated check (age, then BMI,
    then blood pressure) and carries the offending value.  Construction
    fails for each of age -1, age 121, BMI 9.9, BMI 60.1, pressure 59 and
    pressure 251 whatever the other two values are, naming that field
    when the fields checked before it are in range, and it succeeds
    whenever 0 <= age <= 120, 10 <= bmi <= 60 and 60 <= pressure <= 250.
    An instance that is produced has passed the three checks, which a BMI
    that is not a number does although it is no valid BMI. *)
Theorem HealthMetrics_construction :
  (exists e,
     HealthMetrics_init (-1) 22 110 = Raise e /\
     e = ValueError "Invalid age: " (Py.Int (-1)) /\
     is_InvalidInputError e = false) /\
  (forall (a : Z) (b : float) (p : Z) (e : exn),
     HealthMetrics_init a b p = Raise e ->
     is_InvalidInputError e = false /\
     exists text value, e = ValueError text value) /\
  (forall (a : Z) (b : float) (p : Z),
     HealthMetrics_init a b p = Ok (mkHealthMetrics a b p) \/
     (HealthMetrics_init a b p = Raise (ValueError "Invalid age: " (Py.Int a)) /\
      (a < 0 \/ 120 < a)) \/
     (HealthMetrics_init a b p = Raise (ValueError "Invalid BMI: " (Py.Float b)) /\
      ((b <? 10)%float = true \/ (b >? 60)%float = true)) \/
     (HealthMetrics_init a b p =
        Raise (ValueError "Invalid blood pressure: " (Py.Int p)) /\
      (p < 60 \/ 250 < p))) /\
  (forall (a : Z) (b : float) (p : Z) (m : HealthMetrics),
     HealthMetrics_init a b p = Ok m ->
     m = mkHealthMetrics a b p /\
     0 <= a <= 120 /\ (b <? 10)%float = false /\ (b >? 60)%float = false /\
     60 <= p <= 250) /\
  (HealthMetrics_init 45 S754_nan 110 = Ok (mkHealthMetrics 45 S754_nan 110) /\
   ~ valid_metrics (mkHealthMetrics 45 S754_nan 110)) /\
  (forall (a : Z) (b : float) (p : Z),
     0 <= a <= 120 -> (10 <=? b)%float = true -> (b <=? 60)%float = true ->
     60 <= p <= 250 ->
     HealthMetrics_init a b p = Ok (mkHealthMetrics a b p)) /\
  (forall (b : float) (p : Z),
     HealthMetrics_init (-1) b p =
       Raise (ValueError "Invalid age: " (Py.Int (-1))) /\
     HealthMetrics_init 121 b p =
       Raise (ValueError "Invalid age: " (Py.Int 121))) /\
  (forall (a p : Z),
     (exists e, HealthMetrics_init a 9.9 p = Raise e) /\
     (exists e, HealthMetrics_init a 60.1 p = Raise e) /\
     (0 <= a <= 120 ->
      HealthMetrics_init a 9.9 p =
        Raise (ValueError "Invalid BMI: " (Py.Float 9.9)) /\
      HealthMetrics_init a 60.1 p =
        Raise (ValueError "Invalid BMI: " (Py.Float 60.1)))) /\
  (forall (a : Z) (b : float),
     (exists e, HealthMetrics_init a b 59 = Raise e) /\
     (exists e, HealthMetrics_init a b 251 = Raise e) /\
     (0 <= a <= 120 -> (10 <=? b)%float = true -> (b <=? 60)%float = true ->
      HealthMetrics_init a b 59 =
        Raise (ValueError "Invalid blood pressure: " (Py.Int 59)) /\
      HealthMetrics_init a b 251 =
        Raise (ValueError "Invalid blood pressure: " (Py.Int 251)))).
Proof.
  split; [|split; [|split; [|split; [|split; [|split;
    [exact HealthMetrics_init_valid|split; [|split]]]]]]].
  - eexists. split; [reflexivity|]. split; reflexivity.
  - intros a b p e H.
    destruct (HealthMetrics_init_cases a b p)
      as [(E & _)|[(E & _)|[(E & _)|(E & _)]]];
      rewrite E in H; [discriminate H| | |];
      injection H as <-; (split; [reflexivity|eexists; eexists; reflexivity]).
  - intros a b p.
    destruct (HealthMetrics_init_cases a b p) as [(H & _)|[H|[H|H]]]; tauto.
  - intros a b p m H.
    destruct (HealthMetrics_init_cases a b p)
      as [(E & Ha & B1 & B2 & Hp)|[(E & _)|[(E & _)|(E & _)]]];
      rewrite E in H; try discriminate H.
    injection H as <-. tauto.
  - split; [vm_compute; reflexivity|].
    intros (_ & (H & _) & _). vm_compute in H. discriminate H.
  - intros b p. split; reflexivity.
  - intros a p.
    assert (E1 : (9.9 <? 10)%float = true) by (vm_compute; reflexivity).
    assert (E2 : (60.1 >? 60)%float = true) by (vm_compute; reflexivity).
    assert (E3 : (60.1 <? 10)%float = false) by (vm_compute; reflexivity).
    unfold HealthMetrics_init. rewrite E1, E2, E3.
    destruct ((a <? 0) || (a >? 120)) eqn:Ea; cbn [orb].
    + split; [eexists; reflexivity|]. split; [eexists; reflexivity|].
      intros Ha. apply orb_true_iff in Ea. rewrite Z.gtb_ltb in Ea.
      destruct Ea as [Ea|Ea]; apply Z.ltb_lt in Ea; lia.
    + split; [eexists; reflexivity|]. split; [eexists; reflexivity|].
      intros _. split; reflexivity.
  - intros a b.
    destruct (HealthMetrics_init_cases a b 59) as [(_ & _ & _ & _ & H)|H59];
      [lia|].
    destruct (HealthMetrics_init_cases a b 251) as [(_ & _ & _ & _ & H)|H251];
      [lia|].
    split; [|split].
    + destruct H59 as [(H & _)|[(H & _)|(H & _)]]; eexists; exact H.
    + destruct H251 as [(H & _)|[(H & _)|(H & _)]]; eexists; exact H.
    + intros Ha Hb1 Hb2.
      pose proof (leb_not_ltb _ _ Hb1) as N1.
      pose proof (leb_not_ltb _ _ Hb2) as N2.
      change ((b >? 60)%float = false) in N2.
      split.
      * destruct H59 as [(_ & H)|[(_ & [H|H])|(H & _)]];
          [lia|congruence|congruence|exact H].
      * destruct H251 as [(_ & H)|[(_ & [H|H])|(H & _)]];
          [lia|congruence|congruence|exact H].
Qed.

Lemma HealthMetrics_construction_witness :
  is_InvalidInputError (ValueError "Invalid age: " (Py.Int 121)) = false /\
  HealthMetrics_init 45 26.5 130 = Ok (mkHealthMetrics 45 26.5 130) /\
  HealthMetrics_init 45 9.9 130 =
    Raise (ValueError "Invalid BMI: " (Py.Float 9.9)) /\
  HealthMetrics_init 45 26.5 251 =
    Raise (ValueError "Invalid blood pressure: " (Py.Int 251)).
Proof.
  destruct HealthMetrics_construction
    as (_ & HE & _ & _ & _ & HV & _ & HB & HP).
  split; [|split; [|split]].
  - apply (HE 121 22%float 110). reflexivity.
  - apply (HV 45 26.5%float 130); try lia; vm_compute; reflexivity.
  - apply (HB 45 130). lia.
  - apply (HP 45 26.5%float); try lia; vm_compute; reflexivity.
Defined.

(* ================================================================= *)
(** ** The factor explanation *)

Lemma expected_factors_eq (m : HealthMetrics) (ar br cr : float) :
  expected_factors m ar br cr =
  match ((if significant ar then [age_factor m] else []) ++
         (if significant br then [bmi_factor m] else []) ++
         (if significant cr then [bp_factor m] else []))%list with
  | [] => [healthy_sentinel]
  | kept => kept
  end.
Proof.
  unfold expected_factors. cbn [filter map fst snd].
  destruct (significant ar), (significant br), (significant cr); reflexivity.
Qed.

Lemma identify_factors_expected (m : HealthMetrics) (ar br cr : float) :
  _identify_factors m ar br cr = expected_factors m ar br cr.
Proof.
  rewrite expected_factors_eq.
  unfold _identify_factors, significant, age_factor, bmi_factor,
    bmi_factor_as, bp_factor, healthy_sentinel.
  destruct (ar >? 0.5)%float, (br >? 0.5)%float, (cr >? 0.5)%float;
    reflexivity.
Qed.

Lemma bmi_factor_wording (m : HealthMetrics) :
  ((bmi m <? 30)%float = true -> bmi_factor m = bmi_factor_as "overweight" m) /\
  ((30 <=? bmi m)%float = true -> bmi_factor m = bmi_factor_as "obese" m).
Proof.
  unfold bmi_factor. split.
  - intros ->. reflexivity.
  - intros H. rewrite (leb_not_ltb _ _ H). reflexivity.
Qed.

(** C6.  The factors are, in the fixed order age, BMI, blood pressure, one
    string for each component risk that strictly exceeds 0.5, each string
    quoting the value of its metric (the age and the pressure as integers,
    the BMI with one decimal); the BMI string says "overweight" when
    bmi < 30 and "obese" when bmi >= 30; when no component risk exceeds 0.5
    the result is the sentinel string alone. *)
Theorem factor_explanation :
  (forall (m : HealthMetrics) (ar br cr : float),
     _identify_factors m ar br cr = expected_factors m ar br cr) /\
  (forall m : HealthMetrics,
     valid_metrics m ->
     exists r,
       calculate_risk m = Ok r /\
       contributing_factors r =
         expected_factors m (age_risk_of m) (bmi_risk_of m) (bp_risk_of m)) /\
  (forall (m : HealthMetrics) (ar br cr : float),
     (ar >? 0.5)%float = false -> (br >? 0.5)%float = false ->
     (cr >? 0.5)%float = false ->
     _identify_factors m ar br cr = ["All metrics within healthy ranges"%string]) /\
  (forall (m : HealthMetrics) (ar br cr : float),
     (ar >? 0.5)%float = true -> (br >? 0.5)%float = true ->
     (cr >? 0.5)%float = true ->
     _identify_factors m ar br cr = [age_factor m; bmi_factor m; bp_factor m]) /\
  (forall m : HealthMetrics,
     age_factor m =
       ("Age (" ++ Py.str_int (age m)
          ++ " years) is a significant risk factor")%string /\
     bp_factor m =
       ("Blood pressure (" ++ Py.str_int (blood_pressure_systolic m)
          ++ " mmHg) is elevated")%string /\
     ((bmi m <? 30)%float = true ->
      bmi_factor m =
        ("BMI (" ++ Py.format_1f (bmi m) ++ ") indicates overweight")%string) /\
     ((30 <=? bmi m)%float = true ->
      bmi_factor m =
        ("BMI (" ++ Py.format_1f (bmi m) ++ ") indicates obese")%string)).
Proof.
  split; [exact identify_factors_expected|].
  split; [|split; [|split]].
  - intros m _. eexists. split; [apply calculate_risk_returns|]. fields.
    apply identify_factors_expected.
  - intros m ar br cr Ha Hb Hc.
    rewrite identify_factors_expected, expected_factors_eq.
    unfold significant. rewrite Ha, Hb, Hc. reflexivity.
  - intros m ar br cr Ha Hb Hc.
    rewrite identify_factors_expected, expected_factors_eq.
    unfold significant. rewrite Ha, Hb, Hc. reflexivity.
  - intros m. split; [reflexivity|]. split; [reflexivity|].
    exact (bmi_factor_wording m).
Qed.

Lemma factor_explanation_witness :
  (exists r,
     calculate_risk (mkHealthMetrics 70 27.5 110) = Ok r /\
     contributing_factors r =
       ["Age (70 years) is a significant risk factor"%string]) /\
  _identify_factors (mkHealthMetrics 70 27.5 110) 0.1 0.6 0.1 =
    ["BMI (27.5) indicates overweight"%string].
Proof.
  destruct factor_explanation as (HE & HV & _ & _ & HW).
  split.
  - destruct (HV (mkHealthMetrics 70 27.5 110)) as (r & Hr & Hf).
    + unfold valid_metrics; fields.
      split; [lia|]. split; [|lia]. split; vm_compute; reflexivity.
    + exists r. split; [exact Hr|]. rewrite Hf. vm_compute. reflexivity.
  - rewrite HE, expected_factors_eq.
    destruct (HW (mkHealthMetrics 70 27.5 110)) as (_ & _ & HO & _).
    replace (significant 0.1) with false by (vm_compute; reflexivity).
    replace (significant 0.6) with true by (vm_compute; reflexivity).
    cbn [app]. rewrite HO by (vm_compute; reflexivity).
    vm_compute. reflexivity.
Defined.

Lemma prefix_append (s t : string) : String.prefix s (s ++ t) = true.
Proof.
  induction s as [|c s IH]; simpl; [destruct t; reflexivity|].
  destruct (ascii_dec c c) as [_|N]; [exact IH|contradiction].
Qed.

(** Which of the four kinds of factor string is about the BMI. *)
Lemma mentions_bmi_facts (m : HealthMetrics) (category : string) :
  mentions_bmi (age_factor m) = false /\
  mentions_bmi (bp_factor m) = false /\
  mentions_bmi healthy_sentinel = false /\
  mentions_bmi (bmi_factor_as category m) = true.
Proof.
  split; [reflexivity|]. split; [reflexivity|]. split; [reflexivity|].
  apply prefix_append.
Qed.

Lemma append_cancel_l (s a b : string) :
  (s ++ a)%string = (s ++ b)%string -> a = b.
Proof.
  induction s as [|c s IH]; simpl; intros H; [exact H|].
  injection H as H. exact (IH H).
Qed.

Lemma overweight_is_not_obese (m : HealthMetrics) :
  bmi_factor_as "overweight" m <> bmi_factor_as "obese" m.
Proof.
  unfold bmi_factor_as. intros H.
  apply (append_cancel_l "BMI (") in H.
  apply append_cancel_l in H. discriminate H.
Qed.

(** The BMI weight exceeds 0.5 exactly when [bmi >= 30]. *)
Lemma bmi_significant_iff (b : float) :
  is_nan b = false ->
  (significant (_calculate_bmi_risk b) = true <-> (30 <=? b)%float = true).
Proof.
  intros N. destruct threshold_order as (_ & H2 & H3 & _).
  unfold _calculate_bmi_risk. split.
  - destruct (b <? 18.5)%float; [vm_compute; discriminate|].
    destruct (b <? 25)%float; [vm_compute; discriminate|].
    destruct (b <? 30)%float eqn:E; [vm_compute; discriminate|].
    intros _. apply not_ltb_leb; [exact N|reflexivity|exact E].
  - intros L.
    rewrite (leb_above _ _ _ H2 L), (leb_above _ _ _ H3 L),
      (leb_not_ltb _ _ L).
    vm_compute. reflexivity.
Qed.

(** C10.  For every valid metrics a BMI factor is among the factors exactly
    when bmi >= 30, and it then has the "obese" wording: the "overweight"
    wording never appears, because the overweight band has the weight 0.5
    and a factor needs a weight strictly above 0.5; an underweight BMI
    (weight 0.4) is never a factor either. *)
Theorem bmi_factor_only_when_obese (m : HealthMetrics) :
  valid_metrics m ->
  exists r,
    calculate_risk m = Ok r /\
    (existsb mentions_bmi (contributing_factors r) = true <->
     (30 <=? bmi m)%float = true) /\
    (forall s, In s (contributing_factors r) -> mentions_bmi s = true ->
               s = bmi_factor_as "obese" m) /\
    ~ In (bmi_factor_as "overweight" m) (contributing_factors r) /\
    ((bmi m <? 18.5)%float = true ->
     existsb mentions_bmi (contributing_factors r) = false) /\
    ((25 <=? bmi m)%float = true -> (bmi m <? 30)%float = true ->
     bmi_risk_of m = 0.5%float /\ (bmi_risk_of m >? 0.5)%float = false /\
     existsb mentions_bmi (contributing_factors r) = false).
Proof.
  intros (_ & (Hlo & _) & _).
  pose proof (proj2 (leb_not_nan _ _ Hlo)) as N.
  pose proof (bmi_significant_iff (bmi m) N) as Hsig.
  destruct (mentions_bmi_facts m "obese") as (Ma & Mp & Ms & Mb).
  eexists. split; [apply calculate_risk_returns|]. fields.
  rewrite identify_factors_expected, expected_factors_eq.
  fold (bmi_risk_of m) in Hsig.
  assert (Key :
    forall fs,
      fs = match ((if significant (age_risk_of m) then [age_factor m] else []) ++
                  (if significant (bmi_risk_of m) then [bmi_factor m] else []) ++
                  (if significant (bp_risk_of m) then [bp_factor m] else []))%list
           with [] => [healthy_sentinel] | kept => kept end ->
      (existsb mentions_bmi fs = true <-> (30 <=? bmi m)%float = true) /\
      (forall s, In s fs -> mentions_bmi s = true -> s = bmi_factor_as "obese" m)).
  { intros fs ->.
    destruct (significant (bmi_risk_of m)) eqn:Sb.
    - assert (L : (30 <=? bmi m)%float = true) by (apply Hsig; reflexivity).
      rewrite (proj2 (bmi_factor_wording m) L).
      destruct (significant (age_risk_of m)), (significant (bp_risk_of m));
        cbn [app existsb]; rewrite ?Ma, ?Mp, ?Ms, ?Mb; cbn [orb];
        (split; [tauto|]); intros s Hin Hs;
        repeat (destruct Hin as [<-|Hin]; [congruence|]); destruct Hin.
    - assert (L : (30 <=? bmi m)%float <> true).
      { intros L. apply Hsig in L. discriminate L. }
      destruct (significant (age_risk_of m)), (significant (bp_risk_of m));
        cbn [app existsb]; rewrite ?Ma, ?Mp, ?Ms; cbn [orb];
        (split; [split; [discriminate|tauto]|]); intros s Hin Hs;
        repeat (destruct Hin as [<-|Hin]; [congruence|]); destruct Hin. }
  destruct (Key _ eq_refl) as (Hiff & Honly).
  destruct threshold_order as (_ & H2 & H3 & _).
  split; [exact Hiff|]. split; [exact Honly|]. split; [|split].
  - intros Hin. apply Honly in Hin.
    + exact (overweight_is_not_obese m Hin).
    + apply (mentions_bmi_facts m "overweight").
  - intros U. apply not_true_is_false. intros E. apply Hiff in E.
    rewrite (leb_above _ _ _ H2 E) in U. discriminate U.
  - intros L U.
    assert (Eb : bmi_risk_of m = 0.5%float).
    { apply (bmi_risk_bands (bmi m)); assumption. }
    split; [exact Eb|]. split; [rewrite Eb; vm_compute; reflexivity|].
    apply not_true_is_false. intros E. apply Hiff in E.
    rewrite (leb_not_ltb _ _ E) in U. discriminate U.
Qed.

Lemma bmi_factor_only_when_obese_witness :
  exists r,
    calculate_risk (mkHealthMetrics 45 27.5 110) = Ok r /\
    existsb mentions_bmi (contributing_factors r) = false.
Proof.
  destruct (bmi_factor_only_when_obese (mkHealthMetrics 45 27.5 110))
    as (r & Hr & _ & _ & _ & _ & H).
  - unfold valid_metrics; fields.
    split; [lia|]. split; [|lia]. split; vm_compute; reflexivity.
  - exists r. split; [exact Hr|].
    apply H; vm_compute; reflexivity.
Defined.

(** The validity assumed above is the domain constraint, which no NaN
    meets.  The checks of [__post_init__] are two comparisons that are
    both false on a NaN, so a NaN BMI is stored, and it is then scored as
    the top band. *)
Remark nan_bmi_is_stored :
  ~ valid_metrics (mkHealthMetrics 45 S754_nan 110) /\
  HealthMetrics_init 45 S754_nan 110 = Ok (mkHealthMetrics 45 S754_nan 110) /\
  calculate_risk (mkHealthMetrics 45 S754_nan 110) =
    Ok (mkRiskAssessment 0.44 MEDIUM 0.85 ["BMI (nan) indicates obese"%string]).
Proof.
  split; [|split; vm_compute; reflexivity].
  intros (_ & (H & _) & _). vm_compute in H. discriminate H.
Qed.

(* ================================================================= *)
(** ** Monotonicity of the level *)

Lemma age_risk_in (a : Z) :
  In (_calculate_age_risk a) [0.1; 0.3; 0.6; 0.9]%float.
Proof.
  cbn [In]. destruct (age_risk_cases a) as [E|[E|[E|E]]]; rewrite E; tauto.
Qed.

Lemma bmi_risk_in (b : float) :
  In (_calculate_bmi_risk b) [0.4; 0.1; 0.5; 0.8]%float.
Proof.
  cbn [In]. destruct (bmi_risk_cases b) as [E|[E|[E|E]]]; rewrite E; tauto.
Qed.

Lemma bp_risk_in (p : Z) :
  In (_calculate_bp_risk p) [0.1; 0.3; 0.6; 0.9]%float.
Proof.
  cbn [In]. destruct (bp_risk_cases p) as [E|[E|[E|E]]]; rewrite E; tauto.
Qed.

(** Takes a membership in a list of literals apart. *)
Ltac in_cases :=
  repeat match goal with
  | H : In _ (_ :: _) |- _ => destruct H as [<-|H]
  | H : In _ [] |- _ => destruct H
  end.

Ltac level_le :=
  match goal with
  | H : (_ <=? _)%float = true |- _ =>
      first [ vm_compute in H; discriminate H
            | apply Z.leb_le; vm_compute; reflexivity ]
  end.

(** The level never goes down when one component risk goes up, the other
    two being fixed. *)
Lemma level_mono_age_risk (x y b c : float) :
  In x [0.1; 0.3; 0.6; 0.9]%float -> In y [0.1; 0.3; 0.6; 0.9]%float ->
  In b [0.4; 0.1; 0.5; 0.8]%float -> In c [0.1; 0.3; 0.6; 0.9]%float ->
  (x <=? y)%float = true ->
  rank (_categorize_risk (weighted x b c)) <=
  rank (_categorize_risk (weighted y b c)).
Proof. intros Hx Hy Hb Hc Hle. in_cases; level_le. Qed.

Lemma level_mono_bmi_risk (a x y c : float) :
  In a [0.1; 0.3; 0.6; 0.9]%float -> In x [0.4; 0.1; 0.5; 0.8]%float ->
  In y [0.4; 0.1; 0.5; 0.8]%float -> In c [0.1; 0.3; 0.6; 0.9]%float ->
  (x <=? y)%float = true ->
  rank (_categorize_risk (weighted a x c)) <=
  rank (_categorize_risk (weighted a y c)).
Proof. intros Ha Hx Hy Hc Hle. in_cases; level_le. Qed.

Lemma level_mono_bp_risk (a b x y : float) :
  In a [0.1; 0.3; 0.6; 0.9]%float -> In b [0.4; 0.1; 0.5; 0.8]%float ->
  In x [0.1; 0.3; 0.6; 0.9]%float -> In y [0.1; 0.3; 0.6; 0.9]%float ->
  (x <=? y)%float = true ->
  rank (_categorize_risk (weighted a b x)) <=
  rank (_categorize_risk (weighted a b y)).
Proof. intros Ha Hb Hx Hy Hle. in_cases; level_le. Qed.

Lemma age_risk_mono (a1 a2 : Z) :
  a1 <= a2 ->
  (_calculate_age_risk a1 <=? _calculate_age_risk a2)%float = true.
Proof.
  intros H. unfold _calculate_age_risk.
  destruct (Z.ltb_spec a1 30), (Z.ltb_spec a1 50), (Z.ltb_spec a1 65),
           (Z.ltb_spec a2 30), (Z.ltb_spec a2 50), (Z.ltb_spec a2 65);
    try lia; vm_compute; reflexivity.
Qed.

Lemma bp_risk_mono (p1 p2 : Z) :
  p1 <= p2 ->
  (_calculate_bp_risk p1 <=? _calculate_bp_risk p2)%float = true.
Proof.
  intros H. unfold _calculate_bp_risk.
  destruct (Z.ltb_spec p1 120), (Z.ltb_spec p1 130), (Z.ltb_spec p1 140),
           (Z.ltb_spec p2 120), (Z.ltb_spec p2 130), (Z.ltb_spec p2 140);
    try lia; vm_compute; reflexivity.
Qed.

(** The BMI weight goes down in one place only: from the underweight band
    (0.4) into the normal band (0.1). *)
Lemma bmi_risk_mono (b1 b2 : float) :
  (b1 <=? b2)%float = true ->
  (18.5 <=? b1)%float = true \/ (b2 <? 18.5)%float = true \/
  (25 <=? b2)%float = true ->
  (_calculate_bmi_risk b1 <=? _calculate_bmi_risk b2)%float = true.
Proof.
  intros Hle Hex.
  pose proof (leb_ltb_trans b1 b2 18.5%float Hle) as I1.
  pose proof (leb_ltb_trans b1 b2 25%float Hle) as I2.
  pose proof (leb_ltb_trans b1 b2 30%float Hle) as I3.
  unfold _calculate_bmi_risk.
  destruct (b1 <? 18.5)%float eqn:T1, (b1 <? 25)%float eqn:T2,
           (b1 <? 30)%float eqn:T3, (b2 <? 18.5)%float eqn:U1,
           (b2 <? 25)%float eqn:U2, (b2 <? 30)%float eqn:U3;
    try (discriminate (I1 eq_refl)); try (discriminate (I2 eq_refl));
    try (discriminate (I3 eq_refl)); try (vm_compute; reflexivity).
  all: destruct Hex as [H|[H|H]];
    [ apply leb_not_ltb in H; congruence
    | congruence
    | apply leb_not_ltb in H; congruence ].
Qed.

(** C8, as the code has it.  For valid metrics, raising the age or the
    systolic pressure while the other two inputs are fixed never lowers the
    rank of the level, and neither does raising the BMI, except when the
    BMI rises from the underweight band (below 18.5, weight 0.4) into the
    normal band (from 18.5 up to 25, weight 0.1). *)
Theorem level_monotone (m1 m2 : HealthMetrics) :
  valid_metrics m1 -> valid_metrics m2 ->
  (age m1 <= age m2 /\ bmi m2 = bmi m1 /\
   blood_pressure_systolic m2 = blood_pressure_systolic m1) \/
  (age m2 = age m1 /\
   ((bmi m1 <=? bmi m2)%float = true /\
    ((18.5 <=? bmi m1)%float = true \/ (bmi m2 <? 18.5)%float = true \/
     (25 <=? bmi m2)%float = true)) /\
   blood_pressure_systolic m2 = blood_pressure_systolic m1) \/
  (age m2 = age m1 /\ bmi m2 = bmi m1 /\
   blood_pressure_systolic m1 <= blood_pressure_systolic m2) ->
  exists r1 r2,
    calculate_risk m1 = Ok r1 /\ calculate_risk m2 = Ok r2 /\
    rank (risk_level r1) <= rank (risk_level r2).
Proof.
  intros _ _ H. do 2 eexists.
  split; [apply calculate_risk_returns|].
  split; [apply calculate_risk_returns|]. fields.
  unfold weighted_score, age_risk_of, bmi_risk_of, bp_risk_of.
  destruct H as [(Ha & -> & ->)|[(-> & (Hb & Hex) & ->)|(-> & -> & Hp)]].
  - apply level_mono_age_risk;
      auto using age_risk_in, bmi_risk_in, bp_risk_in, age_risk_mono.
  - apply level_mono_bmi_risk;
      auto using age_risk_in, bmi_risk_in, bp_risk_in, bmi_risk_mono.
  - apply level_mono_bp_risk;
      auto using age_risk_in, bmi_risk_in, bp_risk_in, bp_risk_mono.
Qed.

Lemma level_monotone_witness :
  exists r1 r2,
    calculate_risk (mkHealthMetrics 45 26.5 130) = Ok r1 /\
    calculate_risk (mkHealthMetrics 45 31 130) = Ok r2 /\
    rank (risk_level r1) <= rank (risk_level r2).
Proof.
  apply (level_monotone (mkHealthMetrics 45 26.5 130)
                        (mkHealthMetrics 45 31 130)).
  - unfold valid_metrics; fields.
    split; [lia|]. split; [|lia]. split; vm_compute; reflexivity.
  - unfold valid_metrics; fields.
    split; [lia|]. split; [|lia]. split; vm_compute; reflexivity.
  - right. left. fields. split; [reflexivity|]. split; [|reflexivity].
    split; [vm_compute; reflexivity|]. left. vm_compute. reflexivity.
Defined.

(** The claim C8 fails for the BMI: with age 50 and pressure 130, raising
    the BMI from 18 to 19 lowers the level from HIGH to MEDIUM. *)
Lemma bmi_increase_lowers_level :
  valid_metrics (mkHealthMetrics 50 18 130) /\
  valid_metrics (mkHealthMetrics 50 19 130) /\
  (18 <? 19)%float = true /\
  exists r1 r2,
    calculate_risk (mkHealthMetrics 50 18 130) = Ok r1 /\
    calculate_risk (mkHealthMetrics 50 19 130) = Ok r2 /\
    risk_level r1 = HIGH /\ risk_level r2 = MEDIUM /\
    rank (risk_level r2) < rank (risk_level r1).
Proof.
  split; [|split; [|split]].
  - unfold valid_metrics; fields.
    split; [lia|]. split; [|lia]. split; vm_compute; reflexivity.
  - unfold valid_metrics; fields.
    split; [lia|]. split; [|lia]. split; vm_compute; reflexivity.
  - vm_compute. reflexivity.
  - do 2 eexists.
    split; [vm_compute; reflexivity|]. split; [vm_compute; reflexivity|].
    fields. split; [reflexivity|]. split; [reflexivity|]. reflexivity.
Qed.

(* ================================================================= *)
(** ** Bands of the inputs *)

(** The band of an age, with the weight of the band. *)
Lemma age_band_cases (a : Z) :
  (a < 30 /\ _calculate_age_risk a = 0.1%float) \/
  (30 <= a < 50 /\ _calculate_age_risk a = 0.3%float) \/
  (50 <= a < 65 /\ _calculate_age_risk a = 0.6%float) \/
  (65 <= a /\ _calculate_age_risk a = 0.9%float).
Proof.
  destruct (age_risk_bands a) as (H1 & H2 & H3 & H4).
  destruct (Z.lt_ge_cases a 30); [left; auto|].
  destruct (Z.lt_ge_cases a 50); [right; left; auto|].
  destruct (Z.lt_ge_cases a 65); [right; right; left; auto|].
  right; right; right; auto.
Qed.

Lemma bp_band_cases (p : Z) :
  (p < 120 /\ _calculate_bp_risk p = 0.1%float) \/
  (120 <= p < 130 /\ _calculate_bp_risk p = 0.3%float) \/
  (130 <= p < 140 /\ _calculate_bp_risk p = 0.6%float) \/
  (140 <= p /\ _calculate_bp_risk p = 0.9%float).
Proof.
  destruct (bp_risk_bands p) as (H1 & H2 & H3 & H4).
  destruct (Z.lt_ge_cases p 120); [left; auto|].
  destruct (Z.lt_ge_cases p 130); [right; left; auto|].
  destruct (Z.lt_ge_cases p 140); [right; right; left; auto|].
  right; right; right; auto.
Qed.

(** The band of a BMI that is a number: which of the three thresholds it
    is below, and the weight of the band. *)
Lemma bmi_band_cases (b : float) :
  is_nan b = false ->
  ((b <? 18.5)%float = true /\ (b <? 25)%float = true /\
   (b <? 30)%float = true /\ _calculate_bmi_risk b = 0.4%float) \/
  ((18.5 <=? b)%float = true /\ (b <? 25)%float = true /\
   (b <? 30)%float = true /\ _calculate_bmi_risk b = 0.1%float) \/
  ((18.5 <=? b)%float = true /\ (25 <=? b)%float = true /\
   (b <? 30)%float = true /\ _calculate_bmi_risk b = 0.5%float) \/
  ((18.5 <=? b)%float = true /\ (25 <=? b)%float = true /\
   (30 <=? b)%float = true /\ _calculate_bmi_risk b = 0.8%float).
Proof.
  intros N.
  destruct threshold_order as (H1 & H2 & H3 & _).
  destruct (bmi_risk_bands b) as (B1 & B2 & B3 & B4).
  destruct (b <? 18.5)%float eqn:E1.
  { left. repeat split; auto.
    - exact (ltb_leb_trans _ _ _ E1 H1).
    - exact (ltb_leb_trans _ _ _ E1 H2). }
  apply not_ltb_leb in E1; [|exact N|reflexivity].
  destruct (b <? 25)%float eqn:E2.
  { right; left. repeat split; auto.
    exact (ltb_leb_trans _ _ _ E2 H3). }
  apply not_ltb_leb in E2; [|exact N|reflexivity].
  destruct (b <? 30)%float eqn:E3.
  { right; right; left. repeat split; auto. }
  apply not_ltb_leb in E3; [|exact N|reflexivity].
  right; right; right. repeat split; auto.
Qed.

(** X1.  [_categorize_risk] never goes down when the score goes up. *)
Theorem categorize_risk_monotone (s1 s2 : float) :
  (s1 <=? s2)%float = true ->
  rank (_categorize_risk s1) <= rank (_categorize_risk s2).
Proof.
  intros Hle.
  pose proof (leb_ltb_trans s1 s2 0.25%float Hle) as I1.
  pose proof (leb_ltb_trans s1 s2 0.5%float Hle) as I2.
  pose proof (leb_ltb_trans s1 s2 0.75%float Hle) as I3.
  unfold _categorize_risk.
  destruct (s1 <? 0.25)%float, (s1 <? 0.5)%float, (s1 <? 0.75)%float,
           (s2 <? 0.25)%float, (s2 <? 0.5)%float, (s2 <? 0.75)%float;
    try (discriminate (I1 eq_refl)); try (discriminate (I2 eq_refl));
    try (discriminate (I3 eq_refl)); cbn [rank]; lia.
Qed.

Lemma categorize_risk_monotone_witness :
  rank (_categorize_risk 0.249) <= rank (_categorize_risk 0.25).
Proof.
  apply categorize_risk_monotone. vm_compute. reflexivity.
Defined.

(* ================================================================= *)
(** ** Which factors are listed *)

Lemma age_significant_iff (a : Z) :
  significant (_calculate_age_risk a) = true <-> 50 <= a.
Proof.
  destruct (age_band_cases a) as [(H & E)|[(H & E)|[(H & E)|(H & E)]]];
    rewrite E; split; intros X; try lia;
    try (vm_compute in X; discriminate X); vm_compute; reflexivity.
Qed.

Lemma bp_significant_iff (p : Z) :
  significant (_calculate_bp_risk p) = true <-> 130 <= p.
Proof.
  destruct (bp_band_cases p) as [(H & E)|[(H & E)|[(H & E)|(H & E)]]];
    rewrite E; split; intros X; try lia;
    try (vm_compute in X; discriminate X); vm_compute; reflexivity.
Qed.

(** The four kinds of factor string differ in their first two
    characters. *)
Lemma factor_strings_distinct (m : HealthMetrics) :
  age_factor m <> bmi_factor m /\ age_factor m <> bp_factor m /\
  bmi_factor m <> bp_factor m /\ healthy_sentinel <> age_factor m /\
  healthy_sentinel <> bmi_factor m /\ healthy_sentinel <> bp_factor m.
Proof.
  unfold age_factor, bmi_factor, bmi_factor_as, bp_factor, healthy_sentinel.
  cbn [append]. repeat split; discriminate.
Qed.

(** The factors of [calculate_risk], by the three significance flags. *)
Lemma calculate_risk_factors (m : HealthMetrics) :
  exists r,
    calculate_risk m = Ok r /\
    risk_score r = Py.round (weighted_score m) 3 /\
    risk_level r = _categorize_risk (weighted_score m) /\
    contributing_factors r =
      match ((if significant (age_risk_of m) then [age_factor m] else []) ++
             (if significant (bmi_risk_of m) then [bmi_factor m] else []) ++
             (if significant (bp_risk_of m) then [bp_factor m] else []))%list
      with
      | [] => [healthy_sentinel]
      | kept => kept
      end.
Proof.
  eexists. split; [apply calculate_risk_returns|]. fields.
  split; [reflexivity|]. split; [reflexivity|].
  rewrite identify_factors_expected. apply expected_factors_eq.
Qed.

(** X5.  The list of factors is never empty, has at most three entries and no
    entry twice, and holds the sentinel only as its single entry. *)
Theorem factors_shape (m : HealthMetrics) :
  exists r,
    calculate_risk m = Ok r /\
    (1 <= List.length (contributing_factors r) <= 3)%nat /\
    NoDup (contributing_factors r) /\
    (In healthy_sentinel (contributing_factors r) ->
     contributing_factors r = [healthy_sentinel]).
Proof.
  destruct (calculate_risk_factors m) as (r & Hr & _ & _ & Hf).
  destruct (factor_strings_distinct m) as (D1 & D2 & D3 & D4 & D5 & D6).
  exists r. split; [exact Hr|]. rewrite Hf.
  destruct (significant (age_risk_of m)), (significant (bmi_risk_of m)),
           (significant (bp_risk_of m)); cbn [app List.length In].
  all: split; [lia|]; split;
    [ repeat constructor; cbn [In]; intuition congruence
    | intuition congruence ].
Qed.

(** X6.  The age factor is listed exactly from age 50 on, the blood pressure
    factor exactly from 130 mmHg on, and for valid metrics the sentinel is
    the result exactly when age < 50, bmi < 30 and pressure < 130. *)
Theorem factors_by_input (m : HealthMetrics) :
  valid_metrics m ->
  exists r,
    calculate_risk m = Ok r /\
    (In (age_factor m) (contributing_factors r) <-> 50 <= age m) /\
    (In (bp_factor m) (contributing_factors r) <->
     130 <= blood_pressure_systolic m) /\
    (contributing_factors r = [healthy_sentinel] <->
     age m < 50 /\ (bmi m <? 30)%float = true /\
     blood_pressure_systolic m < 130).
Proof.
  intros (_ & (Hlo & _) & _).
  pose proof (proj2 (leb_not_nan _ _ Hlo)) as N.
  destruct (calculate_risk_factors m) as (r & Hr & _ & _ & Hf).
  destruct (factor_strings_distinct m) as (D1 & D2 & D3 & D4 & D5 & D6).
  pose proof (age_significant_iff (age m)) as Sa.
  pose proof (bp_significant_iff (blood_pressure_systolic m)) as Sp.
  pose proof (bmi_significant_iff (bmi m) N) as Sb.
  assert (Sb' : significant (bmi_risk_of m) = false <->
                (bmi m <? 30)%float = true).
  { fold (bmi_risk_of m) in Sb. split.
    - intros X. destruct (bmi m <? 30)%float eqn:E; [reflexivity|].
      apply not_ltb_leb in E; [|exact N|reflexivity].
      apply Sb in E. congruence.
    - intros X. apply not_true_is_false. intros Y. apply Sb in Y.
      apply leb_not_ltb in Y. congruence. }
  fold (age_risk_of m) in Sa. fold (bp_risk_of m) in Sp.
  exists r. split; [exact Hr|]. rewrite Hf.
  destruct (significant (age_risk_of m)), (significant (bmi_risk_of m)),
           (significant (bp_risk_of m)); cbn [app In].
  all: repeat split; intros; try tauto; try lia; try congruence;
    try (exfalso; intuition (congruence || lia));
    try (intuition (congruence || lia)).
Qed.

Lemma factors_by_input_witness :
  exists r,
    calculate_risk (mkHealthMetrics 70 27.5 110) = Ok r /\
    In (age_factor (mkHealthMetrics 70 27.5 110)) (contributing_factors r).
Proof.
  destruct (factors_by_input (mkHealthMetrics 70 27.5 110))
    as (r & Hr & HA & _).
  - unfold valid_metrics; fields.
    split; [lia|]. split; [|lia]. split; vm_compute; reflexivity.
  - exists r. split; [exact Hr|]. apply HA. fields. lia.
Defined.

(* ================================================================= *)
(** ** Level, score and factors together *)

Lemma significant_values :
  significant 0.1 = false /\ significant 0.3 = false /\
  significant 0.4 = false /\ significant 0.5 = false /\
  significant 0.6 = true /\ significant 0.8 = true /\
  significant 0.9 = true.
Proof. vm_compute. repeat split. Qed.

(** Replaces the level of a closed score by its value. *)
Ltac eval_level :=
  repeat match goal with
  | |- context [_categorize_risk (weighted ?a ?b ?c)] =>
      let v := eval vm_compute in (_categorize_risk (weighted a b c)) in
      replace (_categorize_risk (weighted a b c)) with v
        by (vm_compute; reflexivity)
  end.

(** X7.  A LOW assessment lists no factor, a CRITICAL one lists all three, and
    an assessment that lists no factor is LOW or MEDIUM. *)
Theorem level_and_factors (m : HealthMetrics) :
  exists r,
    calculate_risk m = Ok r /\
    (risk_level r = LOW -> contributing_factors r = [healthy_sentinel]) /\
    (risk_level r = CRITICAL ->
     contributing_factors r = [age_factor m; bmi_factor m; bp_factor m]) /\
    (contributing_factors r = [healthy_sentinel] ->
     risk_level r = LOW \/ risk_level r = MEDIUM).
Proof.
  destruct (calculate_risk_factors m) as (r & Hr & _ & Hl & Hf).
  destruct (factor_strings_distinct m) as (D1 & D2 & D3 & D4 & D5 & D6).
  destruct significant_values as (S1 & S3 & S4 & S5 & S6 & S8 & S9).
  exists r. split; [exact Hr|]. rewrite Hl, Hf. clear Hr Hl Hf.
  risk_cases m; eval_level;
    rewrite ?S1, ?S3, ?S4, ?S5, ?S6, ?S8, ?S9; cbn [app];
    (split; [|split]); intros X;
    solve [ reflexivity | discriminate X | now left | now right
          | injection X; intros; congruence ].
Qed.

Lemma level_and_factors_witness :
  exists r,
    calculate_risk (mkHealthMetrics 25 22 110) = Ok r /\
    contributing_factors r = [healthy_sentinel].
Proof.
  destruct (level_and_factors (mkHealthMetrics 25 22 110))
    as (r & Hr & HL & _).
  exists r. split; [exact Hr|]. apply HL.
  assert (E : Ok r = Ok (mkRiskAssessment 0.1 LOW 0.85 [healthy_sentinel])).
  { rewrite <- Hr. vm_compute. reflexivity. }
  injection E as ->. reflexivity.
Defined.

Lemma leb_negb_ltb (c x : float) :
  is_nan c = false -> is_nan x = false ->
  (c <=? x)%float = negb (x <? c)%float.
Proof.
  intros Nc Nx. destruct (x <? c)%float eqn:E; cbn [negb].
  - destruct (c <=? x)%float eqn:L; [|reflexivity].
    apply leb_not_ltb in L. congruence.
  - apply not_ltb_leb; assumption.
Qed.

(** The values the three [<] tests of the BMI ladder can take together. *)
Lemma bmi_ladder_cases (b : float) :
  ((b <? 18.5)%float = true /\ (b <? 25)%float = true /\
   (b <? 30)%float = true /\ _calculate_bmi_risk b = 0.4%float) \/
  ((b <? 18.5)%float = false /\ (b <? 25)%float = true /\
   (b <? 30)%float = true /\ _calculate_bmi_risk b = 0.1%float) \/
  ((b <? 18.5)%float = false /\ (b <? 25)%float = false /\
   (b <? 30)%float = true /\ _calculate_bmi_risk b = 0.5%float) \/
  ((b <? 18.5)%float = false /\ (b <? 25)%float = false /\
   (b <? 30)%float = false /\ _calculate_bmi_risk b = 0.8%float).
Proof.
  destruct threshold_order as (H1 & H2 & H3 & _).
  unfold _calculate_bmi_risk.
  destruct (b <? 18.5)%float eqn:E1.
  { left. rewrite (ltb_leb_trans _ _ _ E1 H1), (ltb_leb_trans _ _ _ E1 H2).
    repeat split. }
  destruct (b <? 25)%float eqn:E2.
  { right; left. rewrite (ltb_leb_trans _ _ _ E2 H3). repeat split. }
  destruct (b <? 30)%float eqn:E3.
  { right; right; left. repeat split. }
  right; right; right. repeat split.
Qed.

(** Splits on the band of each of the three inputs of [m]. *)
Ltac input_bands m :=
  unfold weighted_score, age_risk_of, bmi_risk_of, bp_risk_of in *;
  let H := fresh "Ha" in let E := fresh "E" in
  destruct (age_band_cases (age m)) as [(H & E)|[(H & E)|[(H & E)|(H & E)]]];
  rewrite E in *; clear E;
  let T1 := fresh "T" in let T2 := fresh "T" in let T3 := fresh "T" in
  destruct (bmi_ladder_cases (bmi m))
    as [(T1 & T2 & T3 & E)|[(T1 & T2 & T3 & E)|[(T1 & T2 & T3 & E)
       |(T1 & T2 & T3 & E)]]];
  rewrite E in *; clear E; rewrite ?T1, ?T2, ?T3 in *;
  let H := fresh "Hp" in
  destruct (bp_band_cases (blood_pressure_systolic m))
    as [(H & E)|[(H & E)|[(H & E)|(H & E)]]];
  rewrite E in *; clear E.

(** X4.  For valid metrics the level is CRITICAL exactly when age >= 50,
    bmi >= 30 and pressure >= 130 with age >= 65 or pressure >= 140; it is
    LOW exactly when age < 50, bmi < 25 and pressure < 130 with
    bmi >= 18.5 or both age < 30 and pressure < 120. *)
Theorem level_by_input (m : HealthMetrics) :
  valid_metrics m ->
  exists r,
    calculate_risk m = Ok r /\
    (risk_level r = CRITICAL <->
     50 <= age m /\ (30 <=? bmi m)%float = true /\
     130 <= blood_pressure_systolic m /\
     (65 <= age m \/ 140 <= blood_pressure_systolic m)) /\
    (risk_level r = LOW <->
     age m < 50 /\ (bmi m <? 25)%float = true /\
     blood_pressure_systolic m < 130 /\
     ((18.5 <=? bmi m)%float = true \/
      (age m < 30 /\ blood_pressure_systolic m < 120))).
Proof.
  intros (_ & (Hlo & _) & _).
  pose proof (proj2 (leb_not_nan _ _ Hlo)) as N.
  destruct (calculate_risk_factors m) as (r & Hr & _ & Hl & _).
  exists r. split; [exact Hr|]. rewrite Hl. clear Hr Hl Hlo.
  rewrite (leb_negb_ltb 30 (bmi m) eq_refl N).
  rewrite (leb_negb_ltb 18.5 (bmi m) eq_refl N).
  input_bands m; eval_level; cbn [negb];
    (split; split; intros X);
    solve [ discriminate X | reflexivity
          | repeat split; (lia || reflexivity || tauto)
          | exfalso; intuition (lia || discriminate) ].
Qed.

Lemma level_by_input_witness :
  exists r,
    calculate_risk (mkHealthMetrics 70 32 135) = Ok r /\
    risk_level r = CRITICAL.
Proof.
  destruct (level_by_input (mkHealthMetrics 70 32 135)) as (r & Hr & Hc & _).
  - unfold valid_metrics; fields.
    split; [lia|]. split; [|lia]. split; vm_compute; reflexivity.
  - exists r. split; [exact Hr|]. apply Hc. fields.
    split; [lia|]. split; [vm_compute; reflexivity|]. split; [lia|].
    left. lia.
Defined.

(** X2.  The reported score is never below 0.1 nor above 0.86. *)
Theorem score_range (m : HealthMetrics) :
  exists r,
    calculate_risk m = Ok r /\
    (0.1 <=? risk_score r)%float = true /\
    (risk_score r <=? 0.86)%float = true.
Proof.
  eexists. split; [apply calculate_risk_returns|]. fields.
  risk_cases m; split; vm_compute; reflexivity.
Qed.

Ltac score_le :=
  match goal with
  | H : (_ <=? _)%float = true |- _ =>
      first [ vm_compute in H; discriminate H
            | split; [vm_compute; reflexivity
                     |apply Z.leb_le; vm_compute; reflexivity] ]
  end.

(** Score and level never go down when one component risk goes up. *)
Lemma assessment_mono_age_risk (x y b c : float) :
  In x [0.1; 0.3; 0.6; 0.9]%float -> In y [0.1; 0.3; 0.6; 0.9]%float ->
  In b [0.4; 0.1; 0.5; 0.8]%float -> In c [0.1; 0.3; 0.6; 0.9]%float ->
  (x <=? y)%float = true ->
  (Py.round (weighted x b c) 3 <=? Py.round (weighted y b c) 3)%float = true /\
  rank (_categorize_risk (weighted x b c)) <=
  rank (_categorize_risk (weighted y b c)).
Proof. intros Hx Hy Hb Hc Hle. in_cases; score_le. Qed.

Lemma assessment_mono_bmi_risk (a x y c : float) :
  In a [0.1; 0.3; 0.6; 0.9]%float -> In x [0.4; 0.1; 0.5; 0.8]%float ->
  In y [0.4; 0.1; 0.5; 0.8]%float -> In c [0.1; 0.3; 0.6; 0.9]%float ->
  (x <=? y)%float = true ->
  (Py.round (weighted a x c) 3 <=? Py.round (weighted a y c) 3)%float = true /\
  rank (_categorize_risk (weighted a x c)) <=
  rank (_categorize_risk (weighted a y c)).
Proof. intros Ha Hx Hy Hc Hle. in_cases; score_le. Qed.

Lemma assessment_mono_bp_risk (a b x y : float) :
  In a [0.1; 0.3; 0.6; 0.9]%float -> In b [0.4; 0.1; 0.5; 0.8]%float ->
  In x [0.1; 0.3; 0.6; 0.9]%float -> In y [0.1; 0.3; 0.6; 0.9]%float ->
  (x <=? y)%float = true ->
  (Py.round (weighted a b x) 3 <=? Py.round (weighted a b y) 3)%float = true /\
  rank (_categorize_risk (weighted a b x)) <=
  rank (_categorize_risk (weighted a b y)).
Proof. intros Ha Hb Hx Hy Hle. in_cases; score_le. Qed.

(** X3.  When no input goes down, and the BMI does not rise from below 18.5
    into the band from 18.5 up to 25, neither the reported score nor the
    level goes down: the three inputs may rise together. *)
Theorem assessment_monotone (m1 m2 : HealthMetrics) :
  age m1 <= age m2 ->
  (bmi m1 <=? bmi m2)%float = true ->
  (18.5 <=? bmi m1)%float = true \/ (bmi m2 <? 18.5)%float = true \/
  (25 <=? bmi m2)%float = true ->
  blood_pressure_systolic m1 <= blood_pressure_systolic m2 ->
  exists r1 r2,
    calculate_risk m1 = Ok r1 /\ calculate_risk m2 = Ok r2 /\
    (risk_score r1 <=? risk_score r2)%float = true /\
    rank (risk_level r1) <= rank (risk_level r2).
Proof.
  intros Ha Hb Hex Hp. do 2 eexists.
  split; [apply calculate_risk_returns|].
  split; [apply calculate_risk_returns|]. fields.
  unfold weighted_score, age_risk_of, bmi_risk_of, bp_risk_of.
  destruct (assessment_mono_age_risk
              (_calculate_age_risk (age m1)) (_calculate_age_risk (age m2))
              (_calculate_bmi_risk (bmi m1))
              (_calculate_bp_risk (blood_pressure_systolic m1)))
    as (S1 & L1);
    auto using age_risk_in, bmi_risk_in, bp_risk_in, age_risk_mono.
  destruct (assessment_mono_bmi_risk
              (_calculate_age_risk (age m2))
              (_calculate_bmi_risk (bmi m1)) (_calculate_bmi_risk (bmi m2))
              (_calculate_bp_risk (blood_pressure_systolic m1)))
    as (S2 & L2);
    auto using age_risk_in, bmi_risk_in, bp_risk_in, bmi_risk_mono.
  destruct (assessment_mono_bp_risk
              (_calculate_age_risk (age m2)) (_calculate_bmi_risk (bmi m2))
              (_calculate_bp_risk (blood_pressure_systolic m1))
              (_calculate_bp_risk (blood_pressure_systolic m2)))
    as (S3 & L3);
    auto using age_risk_in, bmi_risk_in, bp_risk_in, bp_risk_mono.
  split; [|lia].
  exact (leb_trans _ _ _ (leb_trans _ _ _ S1 S2) S3).
Qed.

Lemma assessment_monotone_witness :
  exists r1 r2,
    calculate_risk (mkHealthMetrics 45 26.5 125) = Ok r1 /\
    calculate_risk (mkHealthMetrics 52 31 135) = Ok r2 /\
    (risk_score r1 <=? risk_score r2)%float = true /\
    rank (risk_level r1) <= rank (risk_level r2).
Proof.
  apply (assessment_monotone (mkHealthMetrics 45 26.5 125)
                             (mkHealthMetrics 52 31 135)); fields.
  - lia.
  - vm_compute. reflexivity.
  - left. vm_compute. reflexivity.
  - lia.
Defined.

(* ================================================================= *)
(** ** The constructors of the domain models *)

(** X8.  [HealthMetrics] accepts exactly the ages from 0 to 120 and pressures
    from 60 to 250 together with a BMI that is from 10 to 60 or is a NaN
    (both comparisons of the BMI check are false on a NaN); when several
    fields are out of range the error names the first of age, BMI, blood
    pressure. *)
Theorem HealthMetrics_init_accepts (a : Z) (b : float) (p : Z) :
  ((exists m, HealthMetrics_init a b p = Ok m) <->
   0 <= a <= 120 /\
   (is_nan b = true \/
    ((10 <=? b)%float = true /\ (b <=? 60)%float = true)) /\
   60 <= p <= 250) /\
  (a < 0 \/ 120 < a ->
   HealthMetrics_init a b p = Raise (ValueError "Invalid age: " (Py.Int a))) /\
  (0 <= a <= 120 -> (b <? 10)%float = true \/ (b >? 60)%float = true ->
   HealthMetrics_init a b p = Raise (ValueError "Invalid BMI: " (Py.Float b))).
Proof.
  split; [|split].
  - split.
    + intros (m & Hm).
      destruct (HealthMetrics_init_cases a b p)
        as [(E & Ha & B1 & B2 & Hp)|[(E & _)|[(E & _)|(E & _)]]];
        rewrite E in Hm; try discriminate Hm.
      split; [exact Ha|]. split; [|exact Hp].
      destruct (is_nan b) eqn:N; [now left|right]. split.
      * apply not_ltb_leb; [exact N|reflexivity|exact B1].
      * apply not_ltb_leb; [reflexivity|exact N|exact B2].
    + intros (Ha & Hb & Hp).
      destruct (HealthMetrics_init_cases a b p)
        as [(E & _)|[(_ & H)|[(_ & H)|(_ & H)]]];
        [eexists; exact E|lia| |lia].
      exfalso. destruct Hb as [N|(L & U)].
      * destruct b; try discriminate N. destruct H as [H|H]; discriminate H.
      * apply leb_not_ltb in L. apply leb_not_ltb in U.
        change ((b >? 60)%float = false) in U.
        destruct H as [H|H]; congruence.
  - intros Ha.
    destruct (HealthMetrics_init_cases a b p)
      as [(_ & H & _)|[(E & _)|[(E & _)|(E & _)]]]; [lia|exact E| |];
      unfold HealthMetrics_init in *;
      destruct (Z.ltb_spec a 0), (Z.gtb_spec a 120); cbn [orb] in *;
      (reflexivity || lia).
  - intros Ha Hb. unfold HealthMetrics_init.
    destruct (Z.ltb_spec a 0), (Z.gtb_spec a 120); try lia. cbn [orb].
    destruct Hb as [-> | ->]; [reflexivity|].
    rewrite orb_true_r. reflexivity.
Qed.

Lemma HealthMetrics_init_accepts_witness :
  HealthMetrics_init 130 9.5 300 =
    Raise (ValueError "Invalid age: " (Py.Int 130)) /\
  HealthMetrics_init 45 9.5 300 =
    Raise (ValueError "Invalid BMI: " (Py.Float 9.5)).
Proof.
  split.
  - destruct (HealthMetrics_init_accepts 130 9.5%float 300) as (_ & H & _).
    apply H. lia.
  - destruct (HealthMetrics_init_accepts 45 9.5%float 300) as (_ & _ & H).
    apply H; [lia|]. left. vm_compute. reflexivity.
Defined.

(** X9.  [RiskAssessment] is constructed exactly when the score and the
    confidence both lie from 0 to 1, and then holds its four arguments; a
    score that is out of range or a NaN is reported before the
    confidence is looked at. *)
Theorem RiskAssessment_init_accepts (s : float) (l : RiskLevel) (c : float)
    (fs : list string) :
  ((exists r, RiskAssessment_init s l c fs = Ok r) <->
   ((0 <=? s)%float = true /\ (s <=? 1)%float = true) /\
   ((0 <=? c)%float = true /\ (c <=? 1)%float = true)) /\
  (forall r, RiskAssessment_init s l c fs = Ok r ->
             r = mkRiskAssessment s l c fs) /\
  ((0 <=? s)%float = false \/ (s <=? 1)%float = false ->
   RiskAssessment_init s l c fs =
     Raise (ValueError "Risk score must be 0-1, got " (Py.Float s))) /\
  (is_nan s = true ->
   RiskAssessment_init s l c fs =
     Raise (ValueError "Risk score must be 0-1, got " (Py.Float s))).
Proof.
  unfold RiskAssessment_init.
  split; [|split; [|split]].
  - destruct (0 <=? s)%float, (s <=? 1)%float; cbn [andb negb];
      try (split; [intros (r & H); discriminate H|intros ((A & B) & _); discriminate]).
    destruct (0 <=? c)%float, (c <=? 1)%float; cbn [andb negb];
      try (split; [intros (r & H); discriminate H|intros (_ & (A & B)); discriminate]).
    split; [intros _; repeat split|intros _; eexists; reflexivity].
  - intros r.
    destruct (0 <=? s)%float, (s <=? 1)%float; cbn [andb negb];
      try discriminate.
    destruct (0 <=? c)%float, (c <=? 1)%float; cbn [andb negb];
      try discriminate.
    intros H. injection H as <-. reflexivity.
  - intros [-> | ->]; [reflexivity|].
    rewrite andb_false_r. reflexivity.
  - intros N. destruct s; try discriminate N. reflexivity.
Qed.

Lemma RiskAssessment_init_accepts_witness :
  RiskAssessment_init 1.2 HIGH 0.85 [] =
    Raise (ValueError "Risk score must be 0-1, got " (Py.Float 1.2)) /\
  RiskAssessment_init S754_nan HIGH 0.85 [] =
    Raise (ValueError "Risk score must be 0-1, got " (Py.Float S754_nan)).
Proof.
  split.
  - destruct (RiskAssessment_init_accepts 1.2%float HIGH 0.85%float [])
      as (_ & _ & H & _).
    apply H. right. vm_compute. reflexivity.
  - destruct (RiskAssessment_init_accepts S754_nan HIGH 0.85%float [])
      as (_ & _ & _ & H).
    apply H. reflexivity.
Defined.

(* ================================================================= *)
(** ** Canonical binary64 numbers between 10 and 60 *)

Lemma digits2_pos_size (p : positive) : digits2_pos p = Pos.size p.
Proof. induction p as [p IH|p IH|]; simpl; congruence. Qed.

(** A canonical mantissa above the subnormal exponent has 53 bits. *)
Lemma normal_mantissa_bounds (m : positive) (e : Z) :
  bounded prec emax m e = true -> -1074 < e ->
  4503599627370496 <= Zpos m < 9007199254740992.
Proof.
  unfold bounded, canonical_mantissa, fexp, emin, prec, emax.
  intros H He. apply andb_true_iff in H. destruct H as [H _].
  apply Z.eqb_eq in H.
  assert (D : Pos.size m = 53%positive).
  { rewrite <- digits2_pos_size. lia. }
  pose proof (Pos.size_gt m) as G. pose proof (Pos.size_le m) as L.
  rewrite D in G, L.
  change (2 ^ 53)%positive with 9007199254740992%positive in G, L.
  clear H D He.
  assert (G' : Zpos m < 9007199254740992) by exact G.
  assert (L' : 9007199254740992 <= 2 * Zpos m) by exact L.
  clear G L. lia.
Qed.

(** What [<=] between two finite numbers says about sign, exponent and
    mantissa when the smaller one is positive. *)
Lemma leb_finite_from (m0 : positive) (e0 : Z) (s : bool) (m : positive)
    (e : Z) :
  SFleb (S754_finite false m0 e0) (S754_finite s m e) = true ->
  s = false /\ (e0 < e \/ (e0 = e /\ Zpos m0 <= Zpos m)).
Proof.
  unfold SFleb. cbn [SFcompare]. destruct s; [discriminate|].
  change (Pos.compare_cont Eq m0 m) with (Zpos m0 ?= Zpos m).
  intros H. split; [reflexivity|]. revert H.
  destruct (Z.compare_spec e0 e) as [C1|C1|C1],
           (Z.compare_spec (Zpos m0) (Zpos m)) as [C2|C2|C2];
    intros H; try discriminate H; lia.
Qed.

Lemma leb_finite_upto (m0 : positive) (e0 : Z) (m : positive) (e : Z) :
  SFleb (S754_finite false m e) (S754_finite false m0 e0) = true ->
  e < e0 \/ (e = e0 /\ Zpos m <= Zpos m0).
Proof.
  intros H. destruct (leb_finite_from m e false m0 e0 H) as (_ & X).
  exact X.
Qed.

(** The sign, exponent and mantissa of a binary64 number from 10 to 60:
    10 is 5629499534213120 * 2^-49 and 60 is 8444249301319680 * 2^-47. *)
Lemma between_10_and_60 (v : float) :
  valid_binary prec emax v = true ->
  (10 <=? v)%float = true -> (v <=? 60)%float = true ->
  exists m e,
    v = S754_finite false m e /\
    ((e = -49 /\ 5629499534213120 <= Zpos m < 9007199254740992) \/
     (e = -48 /\ 4503599627370496 <= Zpos m < 9007199254740992) \/
     (e = -47 /\ 4503599627370496 <= Zpos m <= 8444249301319680)).
Proof.
  replace 10%float with (S754_finite false 5629499534213120 (-49))
    by (vm_compute; reflexivity).
  replace 60%float with (S754_finite false 8444249301319680 (-47))
    by (vm_compute; reflexivity).
  destruct v as [s|s| |s m e]; try (destruct s; discriminate);
    try discriminate.
  intros V L U.
  destruct (leb_finite_from _ _ _ _ _ L) as (-> & HL).
  pose proof (leb_finite_upto _ _ _ _ U) as HU.
  exists m, e. split; [reflexivity|].
  pose proof (normal_mantissa_bounds m e V ltac:(lia)) as (M1 & M2).
  lia.
Qed.

Lemma div_half_even_bounds (n d lo hi : Z) :
  0 < d -> lo * d <= n -> n <= hi * d ->
  lo <= div_half_even n d <= hi.
Proof.
  intros Hd Hlo Hhi. unfold div_half_even.
  pose proof (Z.div_mod n d ltac:(lia)) as E.
  pose proof (Z.mod_pos_bound n d Hd) as B.
  assert (Q1 : lo <= n / d) by (apply Z.div_le_lower_bound; lia).
  assert (Q2 : n / d <= hi) by (apply Z.div_le_upper_bound; lia).
  set (q := n / d) in *. set (r := n mod d) in *.
  assert (Q3 : q = hi -> r = 0).
  { intros ->. rewrite (Z.mul_comm d hi) in E. lia. }
  destruct (Z.compare_spec (2 * r) d) as [C|C|C];
    try destruct (Z.even q); lia.
Qed.

(** A BMI from 10 to 60 has between 100 and 600 tenths. *)
Lemma bmi_tenths_range (m : positive) (e : Z) :
  (e = -49 /\ 5629499534213120 <= Zpos m < 9007199254740992) \/
  (e = -48 /\ 4503599627370496 <= Zpos m < 9007199254740992) \/
  (e = -47 /\ 4503599627370496 <= Zpos m <= 8444249301319680) ->
  100 <= decimal_digits m e 1 <= 600.
Proof.
  unfold decimal_digits.
  intros [(-> & M)|[(-> & M)|(-> & M)]];
    change (0 <=? _) with false; cbn iota;
    change (10 ^ Z.of_nat 1) with 10.
  - change (2 ^ (- (-49))) with 562949953421312.
    apply div_half_even_bounds; lia.
  - change (2 ^ (- (-48))) with 281474976710656.
    apply div_half_even_bounds; lia.
  - change (2 ^ (- (-47))) with 140737488355328.
    apply div_half_even_bounds; lia.
Qed.

(* ================================================================= *)
(** ** The BMI validator of the request schema *)

Lemma same_bits_eq (x y : float) : same_bits x y = true -> x = y.
Proof.
  destruct x as [[]|[]| |s1 m1 e1], y as [[]|[]| |s2 m2 e2];
    cbn [same_bits Bool.eqb]; try discriminate; try reflexivity.
  intros H. apply andb_true_iff in H. destruct H as [H He].
  apply andb_true_iff in H. destruct H as [Hs Hm].
  apply Bool.eqb_prop in Hs. apply Pos.eqb_eq in Hm. apply Z.eqb_eq in He.
  congruence.
Qed.

(** Every number of tenths from 100 to 600 passes [tenth_ok]. *)
Lemma tenth_ok_all (q : Z) : 100 <= q <= 600 -> tenth_ok q = true.
Proof.
  intros Hq.
  assert (A : forallb tenth_ok (map Z.of_nat (seq 100 501)) = true)
    by (vm_compute; reflexivity).
  rewrite forallb_forall in A. apply A.
  replace q with (Z.of_nat (Z.to_nat q)) by lia.
  apply in_map. apply in_seq. lia.
Qed.

Lemma tenth_facts (q : Z) :
  100 <= q <= 600 ->
  (10 <=? decimal q 1)%float = true /\
  (decimal q 1 <=? 60)%float = true /\
  valid_binary prec emax (decimal q 1) = true /\
  Py.round (decimal q 1) 1 = decimal q 1 /\
  Py.format_1f (decimal q 1) =
    (Py.str_int (q / 10) ++ "." ++ Py.str_int (q mod 10))%string /\
  _calculate_bmi_risk (decimal q 1) = bmi_risk_of_tenths q.
Proof.
  intros Hq. pose proof (tenth_ok_all q Hq) as H. unfold tenth_ok in H.
  apply andb_true_iff in H. destruct H as [H H6].
  apply andb_true_iff in H. destruct H as [H H5].
  apply andb_true_iff in H. destruct H as [H H4].
  apply andb_true_iff in H. destruct H as [H H3].
  apply andb_true_iff in H. destruct H as [H1 H2].
  split; [exact H1|]. split; [exact H2|]. split; [exact H3|].
  split; [exact (same_bits_eq _ _ H4)|].
  split; [apply String.eqb_eq; exact H5|].
  exact (same_bits_eq _ _ H6).
Qed.

(** Rounding a canonical float from 10 to 60 to one decimal gives the
    one-decimal literal of its number of tenths. *)
Lemma round_bmi_tenths (v : float) :
  valid_binary prec emax v = true ->
  (10 <=? v)%float = true -> (v <=? 60)%float = true ->
  100 <= tenths v <= 600 /\
  Py.round v 1 = decimal (tenths v) 1 /\
  Py.format_1f v =
    (Py.str_int (tenths v / 10) ++ "." ++ Py.str_int (tenths v mod 10))%string.
Proof.
  intros V L U.
  destruct (between_10_and_60 v V L U) as (m & e & -> & Hme).
  pose proof (bmi_tenths_range m e Hme) as Hq.
  cbn [tenths]. split; [exact Hq|]. split.
  - unfold Py.round, decimal.
    replace (decimal_digits m e 1 <? 0) with false
      by (symmetry; apply Z.ltb_ge; lia).
    reflexivity.
  - reflexivity.
Qed.

(** What the validator returns for a canonical float from 10 to 60. *)
Lemma validate_bmi_returns (v : float) :
  valid_binary prec emax v = true ->
  (10 <=? v)%float = true -> (v <=? 60)%float = true ->
  100 <= tenths v <= 600 /\
  Schemas.validate_bmi v = Schemas.Returns (decimal (tenths v) 1).
Proof.
  intros V L U.
  destruct (round_bmi_tenths v V L U) as (Hq & Hr & _).
  split; [exact Hq|].
  unfold Schemas.validate_bmi.
  rewrite (leb_not_ltb _ _ L).
  pose proof (leb_not_ltb _ _ U) as N.
  change ((v >? 60)%float = false) in N. rewrite N.
  cbn [orb]. rewrite Hr. reflexivity.
Qed.

(** X10.  The validator keeps a BMI from 10 to 60 in that range: what it returns
    is the one-decimal number nearest to its argument, still from 10 to 60,
    so [HealthMetrics] accepts it with any age and pressure in range. *)
Theorem validate_bmi_keeps_range (v : float) :
  valid_binary prec emax v = true ->
  (10 <=? v)%float = true -> (v <=? 60)%float = true ->
  exists w,
    Schemas.validate_bmi v = Schemas.Returns w /\
    w = decimal (tenths v) 1 /\ 100 <= tenths v <= 600 /\
    valid_binary prec emax w = true /\
    (10 <=? w)%float = true /\ (w <=? 60)%float = true /\
    forall a p, 0 <= a <= 120 -> 60 <= p <= 250 ->
                HealthMetrics_init a w p = Ok (mkHealthMetrics a w p).
Proof.
  intros V L U.
  destruct (validate_bmi_returns v V L U) as (Hq & Hv).
  destruct (tenth_facts _ Hq) as (L' & U' & V' & _).
  exists (decimal (tenths v) 1). split.
  - exact Hv.
  - split; [reflexivity|]. split; [exact Hq|]. split; [exact V'|].
    split; [exact L'|]. split; [exact U'|].
    intros a p Ha Hp. apply HealthMetrics_init_valid; assumption.
Qed.

Lemma validate_bmi_keeps_range_witness :
  exists w,
    Schemas.validate_bmi 26.54 = Schemas.Returns w /\ w = 26.5%float.
Proof.
  destruct (validate_bmi_keeps_range 26.54%float) as (w & Hw & E & _);
    [vm_compute; reflexivity..|].
  exists w. split; [exact Hw|]. rewrite E. vm_compute. reflexivity.
Defined.

(** X11.  Validating twice is validating once, and the validated BMI prints
    with one decimal exactly as the BMI that was sent does. *)
Theorem validate_bmi_idempotent (v : float) :
  valid_binary prec emax v = true ->
  (10 <=? v)%float = true -> (v <=? 60)%float = true ->
  exists w,
    Schemas.validate_bmi v = Schemas.Returns w /\
    Schemas.validate_bmi w = Schemas.Returns w /\
    Py.format_1f w = Py.format_1f v.
Proof.
  intros V L U.
  destruct (round_bmi_tenths v V L U) as (Hq & _ & Hf).
  destruct (validate_bmi_returns v V L U) as (_ & Hv).
  destruct (tenth_facts _ Hq) as (L' & U' & V' & R' & F' & _).
  exists (decimal (tenths v) 1). split; [exact Hv|]. split.
  - unfold Schemas.validate_bmi.
    rewrite (leb_not_ltb _ _ L').
    pose proof (leb_not_ltb _ _ U') as N.
    change ((decimal (tenths v) 1 >? 60)%float = false) in N. rewrite N.
    cbn [orb]. rewrite R'. reflexivity.
  - rewrite F', Hf. reflexivity.
Qed.

Lemma validate_bmi_idempotent_witness :
  exists w,
    Schemas.validate_bmi 26.54 = Schemas.Returns w /\
    Schemas.validate_bmi w = Schemas.Returns w /\
    Py.format_1f w = Py.format_1f 26.54.
Proof.
  apply (validate_bmi_idempotent 26.54%float); vm_compute; reflexivity.
Defined.

(** X12.  The band of a validated BMI is read on its tenths: weight 0.4 below
    185 tenths, 0.1 below 250, 0.5 below 300 and 0.8 from 300 on; a BMI
    just under a threshold is thus scored in the band above it once its
    nearest tenth is the threshold. *)
Theorem validated_bmi_band (v : float) :
  valid_binary prec emax v = true ->
  (10 <=? v)%float = true -> (v <=? 60)%float = true ->
  exists w,
    Schemas.validate_bmi v = Schemas.Returns w /\
    _calculate_bmi_risk w = bmi_risk_of_tenths (tenths v).
Proof.
  intros V L U.
  destruct (validate_bmi_returns v V L U) as (Hq & Hv).
  destruct (tenth_facts _ Hq) as (_ & _ & _ & _ & _ & B).
  eexists. split; [exact Hv|exact B].
Qed.

Lemma validated_bmi_band_witness :
  exists w,
    Schemas.validate_bmi 29.96 = Schemas.Returns w /\
    _calculate_bmi_risk 29.96 = 0.5%float /\
    _calculate_bmi_risk w = 0.8%float.
Proof.
  destruct (validated_bmi_band 29.96%float) as (w & Hw & B);
    [vm_compute; reflexivity..|].
  exists w. split; [exact Hw|]. split; [vm_compute; reflexivity|].
  rewrite B. vm_compute. reflexivity.
Defined.

(* ================================================================= *)
(** ** The prediction endpoint *)

Lemma RiskLevel_value_injective (l1 l2 : RiskLevel) :
  RiskLevel_value l1 = RiskLevel_value l2 -> l1 = l2.
Proof. destruct l1, l2; cbn [RiskLevel_value]; congruence. Qed.

(** What the [try] of the handler yields, by the outcome of the
    constructor. *)
Lemma convert_and_score_cases (request : Schemas.HealthMetricsRequest) :
  (exists e,
     HealthMetrics_init (Schemas.age request) (Schemas.bmi request)
       (Schemas.blood_pressure request) = Raise e /\
     (exists text value, e = ValueError text value) /\
     Predictions.convert_and_score request = Raise e) \/
  (exists r,
     HealthMetrics_init (Schemas.age request) (Schemas.bmi request)
       (Schemas.blood_pressure request) =
       Ok (mkHealthMetrics (Schemas.age request) (Schemas.bmi request)
             (Schemas.blood_pressure request)) /\
     calculate_risk
       (mkHealthMetrics (Schemas.age request) (Schemas.bmi request)
          (Schemas.blood_pressure request)) = Ok r /\
     Predictions.convert_and_score request =
       Ok (Schemas.mkRiskAssessmentResponse (risk_score r)
             (RiskLevel_value (risk_level r)) (confidence r)
             (contributing_factors r))).
Proof.
  unfold Predictions.convert_and_score.
  destruct (HealthMetrics_init_cases (Schemas.age request)
              (Schemas.bmi request) (Schemas.blood_pressure request))
    as [(E & _)|[(E & _)|[(E & _)|(E & _)]]]; rewrite E.
  - right. eexists. split; [reflexivity|].
    rewrite calculate_risk_returns. split; reflexivity.
  - left. eexists. split; [reflexivity|]. split; [|reflexivity].
    do 2 eexists. reflexivity.
  - left. eexists. split; [reflexivity|]. split; [|reflexivity].
    do 2 eexists. reflexivity.
  - left. eexists. split; [reflexivity|]. split; [|reflexivity].
    do 2 eexists. reflexivity.
Qed.

(** X13.  A request within the bounds of the schema is answered with status 200
    and the assessment of the scoring service for the same three values,
    the level being sent as one of the four lowercase names, which
    identify it. *)
Theorem predict_health_risk_ok (request : Schemas.HealthMetricsRequest) :
  0 <= Schemas.age request <= 120 ->
  (10 <=? Schemas.bmi request)%float = true ->
  (Schemas.bmi request <=? 60)%float = true ->
  60 <= Schemas.blood_pressure request <= 250 ->
  exists r,
    calculate_risk
      (mkHealthMetrics (Schemas.age request) (Schemas.bmi request)
         (Schemas.blood_pressure request)) = Ok r /\
    Predictions.predict_health_risk request =
      Predictions.Response 200
        (Schemas.mkRiskAssessmentResponse (risk_score r)
           (RiskLevel_value (risk_level r)) (confidence r)
           (contributing_factors r)) /\
    In (RiskLevel_value (risk_level r))
       ["low"; "medium"; "high"; "critical"]%string /\
    (forall l, RiskLevel_value l = RiskLevel_value (risk_level r) ->
               l = risk_level r).
Proof.
  intros Ha L U Hp.
  pose proof (HealthMetrics_init_valid _ _ _ Ha L U Hp) as E.
  destruct (convert_and_score_cases request)
    as [(e & E' & _)|(r & _ & Hr & Hc)]; [congruence|].
  exists r. split; [exact Hr|]. split; [|split].
  - unfold Predictions.predict_health_risk. rewrite Hc. reflexivity.
  - destruct (risk_level r); cbn [RiskLevel_value In]; tauto.
  - intros l. apply RiskLevel_value_injective.
Qed.

Lemma predict_health_risk_ok_witness :
  Predictions.predict_health_risk
    (Schemas.mkHealthMetricsRequest 70 32 145) =
  Predictions.Response 200
    (Schemas.mkRiskAssessmentResponse 0.86 "critical" 0.85
       ["Age (70 years) is a significant risk factor";
        "BMI (32.0) indicates obese";
        "Blood pressure (145 mmHg) is elevated"]%string).
Proof.
  destruct (predict_health_risk_ok (Schemas.mkHealthMetricsRequest 70 32 145))
    as (r & Hr & Hp & _);
    [cbn [Schemas.age]; lia
    |vm_compute; reflexivity
    |vm_compute; reflexivity
    |cbn [Schemas.blood_pressure]; lia
    |].
  rewrite Hp. cbn [Schemas.age Schemas.bmi Schemas.blood_pressure] in Hr.
  assert (E : Ok r = Ok (mkRiskAssessment 0.86 CRITICAL 0.85
       ["Age (70 years) is a significant risk factor";
        "BMI (32.0) indicates obese";
        "Blood pressure (145 mmHg) is elevated"]%string)).
  { rewrite <- Hr. vm_compute. reflexivity. }
  injection E as ->. reflexivity.
Defined.

(** X14.  The handler never answers 400: nothing the domain layer raises is a
    [HealthWatchException].  Whatever the request, the answer is either
    200 with a body or 500 with the detail "Internal server error", and it
    is 500 exactly when [HealthMetrics] rejects the three values. *)
Theorem predict_health_risk_never_400
    (request : Schemas.HealthMetricsRequest) :
  (forall detail,
     Predictions.predict_health_risk request <>
     Predictions.HTTPException 400 detail) /\
  ((exists body,
      Predictions.predict_health_risk request =
      Predictions.Response 200 body) \/
   Predictions.predict_health_risk request =
     Predictions.HTTPException 500 "Internal server error") /\
  (Predictions.predict_health_risk request =
     Predictions.HTTPException 500 "Internal server error" <->
   exists e,
     HealthMetrics_init (Schemas.age request) (Schemas.bmi request)
       (Schemas.blood_pressure request) = Raise e).
Proof.
  unfold Predictions.predict_health_risk.
  destruct (convert_and_score_cases request)
    as [(e & E & (text & value & ->) & Hc)|(r & E & Hr & Hc)]; rewrite Hc.
  - split; [|split].
    + intros detail. discriminate.
    + right. reflexivity.
    + split; [intros _; eexists; exact E|reflexivity].
  - split; [|split].
    + intros detail. discriminate.
    + left. eexists. reflexivity.
    + split; [discriminate|]. intros (e & He). congruence.
Qed.

Lemma predict_health_risk_never_400_witness :
  Predictions.predict_health_risk
    (Schemas.mkHealthMetricsRequest 130 32 145) =
  Predictions.HTTPException 500 "Internal server error".
Proof.
  apply (predict_health_risk_never_400
           (Schemas.mkHealthMetricsRequest 130 32 145)).
  eexists. reflexivity.
Defined.

(* ================================================================= *)
(** ** The model loader *)

(** X15.  How a call of [load_model] ends.  What [model_file.exists()]
    raises, an [OSError] for instance, passes through the method, since
    the test stands before the [try]; so does what [joblib.load] raises
    when it does not derive from [Exception].  The one exception the
    method raises itself is [ModelLoadError], exactly when the file exists
    and [joblib.load] raises an [Exception]; it then carries the path and
    the text of the failure.  A missing file is no error: the call
    returns [None].  The loader changes only in a call that returns what
    [joblib.load] gave, which is then its model; however else the call
    ends, the loader keeps the model it had. *)
Theorem load_model_outcomes (w : ModelLoader.world)
    (self : ModelLoader.loader) :
  (forall f,
     fst (ModelLoader.load_model w self) = ModelLoader.Propagates f <->
     ModelLoader.model_file_exists w = ModelLoader.ExistsRaises f \/
     (ModelLoader.model_file_exists w = ModelLoader.Exists true /\
      ModelLoader.joblib_load w = ModelLoader.Fails f /\
      ModelLoader.is_Exception f = false)) /\
  (forall e,
     fst (ModelLoader.load_model w self) = ModelLoader.Raises e <->
     exists f,
       ModelLoader.model_file_exists w = ModelLoader.Exists true /\
       ModelLoader.joblib_load w = ModelLoader.Fails f /\
       ModelLoader.is_Exception f = true /\
       e = HealthWatch ModelLoadError "Failed to load ML model"
             [("model_path", ModelLoader.model_file w);
              ("error", ModelLoader.str f)]%string) /\
  (forall o,
     fst (ModelLoader.load_model w self) = ModelLoader.Returns o <->
     (ModelLoader.model_file_exists w = ModelLoader.Exists false /\
      o = ModelLoader.PyNone) \/
     (ModelLoader.model_file_exists w = ModelLoader.Exists true /\
      ModelLoader.joblib_load w = ModelLoader.Loads o)) /\
  (snd (ModelLoader.load_model w self) = self \/
   exists o,
     ModelLoader.model_file_exists w = ModelLoader.Exists true /\
     ModelLoader.joblib_load w = ModelLoader.Loads o /\
     ModelLoader.load_model w self =
       (ModelLoader.Returns o, ModelLoader.mkLoader o)) /\
  (forall o,
     fst (ModelLoader.load_model w self) = ModelLoader.Returns o ->
     ModelLoader.get_model (snd (ModelLoader.load_model w self)) <> o ->
     ModelLoader.model_file_exists w = ModelLoader.Exists false /\
     o = ModelLoader.PyNone /\
     ModelLoader.is_model_loaded self = true).
Proof.
  unfold ModelLoader.load_model, ModelLoader.get_model,
    ModelLoader.is_model_loaded.
  destruct (ModelLoader.model_file_exists w) as [[|]|x] eqn:Ex.
  - destruct (ModelLoader.joblib_load w) as [o|x] eqn:J;
      [|destruct (ModelLoader.is_Exception x) eqn:Ie]; cbn [fst snd].
    + split; [|split; [|split; [|split]]].
      * intros f. split; [discriminate|].
        intros [H|(_ & H & _)]; discriminate H.
      * intros e. split; [discriminate|].
        intros (f & _ & H & _). discriminate H.
      * intros o'. split.
        { intros H. injection H as <-. right. split; reflexivity. }
        { intros [(H & _)|(_ & H)]; [discriminate H|].
          injection H as <-. reflexivity. }
      * right. exists o. repeat split.
      * intros o' H N. injection H as <-. exfalso. apply N. reflexivity.
    + split; [|split; [|split; [|split]]].
      * intros f. split; [discriminate|].
        intros [H|(_ & H & Hf)]; [discriminate H|].
        injection H as <-. congruence.
      * intros e. split.
        { intros H. injection H as <-. exists x. repeat split. exact Ie. }
        { intros (f & _ & H & _ & ->). injection H as <-. reflexivity. }
      * intros o. split; [discriminate|].
        intros [(H & _)|(_ & H)]; discriminate H.
      * left. reflexivity.
      * intros o H. discriminate H.
    + split; [|split; [|split; [|split]]].
      * intros f. split.
        { intros H. injection H as <-. right. repeat split. exact Ie. }
        { intros [H|(_ & H & _)]; [discriminate H|].
          injection H as <-. reflexivity. }
      * intros e. split; [discriminate|].
        intros (f & _ & H & Hf & _). injection H as <-. congruence.
      * intros o. split; [discriminate|].
        intros [(H & _)|(_ & H)]; discriminate H.
      * left. reflexivity.
      * intros o H. discriminate H.
  - cbn [fst snd]. split; [|split; [|split; [|split]]].
    + intros f. split; [discriminate|].
      intros [H|(H & _)]; discriminate H.
    + intros e. split; [discriminate|].
      intros (f & H & _). discriminate H.
    + intros o. split.
      * intros H. injection H as <-. left. split; reflexivity.
      * intros [(_ & ->)|(H & _)]; [reflexivity|discriminate H].
    + left. reflexivity.
    + intros o H N. injection H as <-. split; [reflexivity|].
      split; [reflexivity|].
      destruct (ModelLoader._model self); [exfalso; apply N|]; reflexivity.
  - cbn [fst snd]. split; [|split; [|split; [|split]]].
    + intros f. split.
      * intros H. injection H as <-. left. reflexivity.
      * intros [H|(H & _)]; [|discriminate H].
        injection H as <-. reflexivity.
    + intros e. split; [discriminate|].
      intros (f & H & _). discriminate H.
    + intros o. split; [discriminate|].
      intros [(H & _)|(H & _)]; discriminate H.
    + left. reflexivity.
    + intros o H. discriminate H.
Qed.

Lemma load_model_outcomes_witness :
  fst (ModelLoader.load_model
         (ModelLoader.mkWorld "/models/health_risk_model.pkl"
            (ModelLoader.Exists true)
            (ModelLoader.Fails
               (ModelLoader.mkForeign "UnpicklingError" true
                  "invalid load key")))
         (ModelLoader.mkLoader (ModelLoader.Object 3))) =
    ModelLoader.Raises
      (HealthWatch ModelLoadError "Failed to load ML model"
         [("model_path", "/models/health_risk_model.pkl");
          ("error", "invalid load key")]%string) /\
  fst (ModelLoader.load_model
         (ModelLoader.mkWorld "/models/health_risk_model.pkl"
            (ModelLoader.ExistsRaises
               (ModelLoader.mkForeign "OSError" true "File name too long"))
            (ModelLoader.Loads (ModelLoader.Object 5)))
         (ModelLoader.mkLoader (ModelLoader.Object 3))) =
    ModelLoader.Propagates
      (ModelLoader.mkForeign "OSError" true "File name too long") /\
  ModelLoader.is_model_loaded (ModelLoader.mkLoader (ModelLoader.Object 3)) =
    true.
Proof.
  split; [|split].
  - destruct (load_model_outcomes
                (ModelLoader.mkWorld "/models/health_risk_model.pkl"
                   (ModelLoader.Exists true)
                   (ModelLoader.Fails
                      (ModelLoader.mkForeign "UnpicklingError" true
                         "invalid load key")))
                (ModelLoader.mkLoader (ModelLoader.Object 3)))
      as (_ & H & _).
    apply H. eexists. repeat split.
  - destruct (load_model_outcomes
                (ModelLoader.mkWorld "/models/health_risk_model.pkl"
                   (ModelLoader.ExistsRaises
                      (ModelLoader.mkForeign "OSError" true
                         "File name too long"))
                   (ModelLoader.Loads (ModelLoader.Object 5)))
                (ModelLoader.mkLoader (ModelLoader.Object 3)))
      as (H & _).
    apply H. left. reflexivity.
  - destruct (load_model_outcomes
                (ModelLoader.mkWorld "/models/health_risk_model.pkl"
                   (ModelLoader.Exists false)
                   (ModelLoader.Loads (ModelLoader.Object 5)))
                (ModelLoader.mkLoader (ModelLoader.Object 3)))
      as (_ & _ & _ & _ & H).
    apply (H ModelLoader.PyNone); [reflexivity|discriminate].
Defined.

(** X16.  Starting from a new loader, after any sequence of [load_model]
    calls, however each of them ended: if the loader reports a model, that
    model is the object [joblib.load] returned in some call of the
    sequence at which the file existed; and if at no call the file was
    found, the loader still reports no model. *)
Theorem loaded_model_provenance (ws : list ModelLoader.world) :
  (ModelLoader.is_model_loaded
     (ModelLoader.after_loads ws ModelLoader.init) = true ->
   exists w,
     In w ws /\
     ModelLoader.model_file_exists w = ModelLoader.Exists true /\
     ModelLoader.joblib_load w =
       ModelLoader.Loads
         (ModelLoader.get_model
            (ModelLoader.after_loads ws ModelLoader.init))) /\
  (Forall
     (fun w => ModelLoader.model_file_exists w <> ModelLoader.Exists true)
     ws ->
   ModelLoader.is_model_loaded
     (ModelLoader.after_loads ws ModelLoader.init) = false).
Proof.
  assert (G : forall ws self,
    ModelLoader.after_loads ws self = self \/
    exists w, In w ws /\
      ModelLoader.model_file_exists w = ModelLoader.Exists true /\
      ModelLoader.joblib_load w =
        ModelLoader.Loads
          (ModelLoader.get_model (ModelLoader.after_loads ws self))).
  { clear ws. induction ws as [|w ws IH]; intros self; [now left|].
    cbn [ModelLoader.after_loads].
    destruct (IH (snd (ModelLoader.load_model w self))) as [E|(w' & I & X)].
    - rewrite E. unfold ModelLoader.load_model.
      destruct (ModelLoader.model_file_exists w) as [[|]|x] eqn:Ex;
        [|now left|now left].
      destruct (ModelLoader.joblib_load w) as [o|x] eqn:J;
        [|destruct (ModelLoader.is_Exception x); now left].
      cbn [snd]. right. exists w. split; [now left|].
      split; [exact Ex|exact J].
    - right. exists w'. split; [now right|exact X]. }
  split.
  - intros H. destruct (G ws ModelLoader.init) as [E|X]; [|exact X].
    rewrite E in H. discriminate H.
  - intros F.
    assert (E : forall self, ModelLoader.after_loads ws self = self).
    { induction F as [|w ws Hw F IH]; intros self; [reflexivity|].
      cbn [ModelLoader.after_loads]. unfold ModelLoader.load_model.
      destruct (ModelLoader.model_file_exists w) as [[|]|x];
        [exfalso; apply Hw; reflexivity| |]; cbn [snd]; apply IH. }
    rewrite E. reflexivity.
Qed.

Lemma loaded_model_provenance_witness :
  exists w,
    In w
      [ModelLoader.mkWorld "/models/health_risk_model.pkl"
         (ModelLoader.Exists false) (ModelLoader.Loads (ModelLoader.Object 1));
       ModelLoader.mkWorld "/models/health_risk_model.pkl"
         (ModelLoader.Exists true) (ModelLoader.Loads (ModelLoader.Object 7));
       ModelLoader.mkWorld "/models/health_risk_model.pkl"
         (ModelLoader.Exists true)
         (ModelLoader.Fails
            (ModelLoader.mkForeign "UnpicklingError" true "invalid load key"));
       ModelLoader.mkWorld "/models/health_risk_model.pkl"
         (ModelLoader.ExistsRaises
            (ModelLoader.mkForeign "PermissionError" true "Permission denied"))
         (ModelLoader.Loads (ModelLoader.Object 9))] /\
    ModelLoader.model_file_exists w = ModelLoader.Exists true /\
    ModelLoader.joblib_load w = ModelLoader.Loads (ModelLoader.Object 7).
Proof.
  destruct (loaded_model_provenance
    [ModelLoader.mkWorld "/models/health_risk_model.pkl"
       (ModelLoader.Exists false) (ModelLoader.Loads (ModelLoader.Object 1));
     ModelLoader.mkWorld "/models/health_risk_model.pkl"
       (ModelLoader.Exists true) (ModelLoader.Loads (ModelLoader.Object 7));
     ModelLoader.mkWorld "/models/health_risk_model.pkl"
       (ModelLoader.Exists true)
       (ModelLoader.Fails
          (ModelLoader.mkForeign "UnpicklingError" true "invalid load key"));
     ModelLoader.mkWorld "/models/health_risk_model.pkl"
       (ModelLoader.ExistsRaises
          (ModelLoader.mkForeign "PermissionError" true "Permission denied"))
       (ModelLoader.Loads (ModelLoader.Object 9))]) as (H & _).
  apply H. reflexivity.
Defined.

(* ================================================================= *)
(** ** The fields of a log line *)

Lemma get_set_item (d : Logging.dict) (k : string) (v : Logging.field_value)
    (k' : string) :
  Logging.get (Logging.set_item d k v) k' =
  if String.eqb k k' then Some v else Logging.get d k'.
Proof.
  induction d as [|[k0 v0] d IH]; cbn [Logging.set_item Logging.get].
  - reflexivity.
  - destruct (String.eqb_spec k0 k) as [->|N]; cbn [Logging.get].
    + destruct (String.eqb k k'); reflexivity.
    + rewrite IH. destruct (String.eqb_spec k0 k') as [->|N'].
      * destruct (String.eqb_spec k k'); [congruence|reflexivity].
      * reflexivity.
Qed.

Lemma keys_set_item (d : Logging.dict) (k : string) (v : Logging.field_value) :
  keys (Logging.set_item d k v) =
  if in_dec string_dec k (keys d) then keys d else (keys d ++ [k])%list.
Proof.
  unfold keys.
  induction d as [|[k0 v0] d IH]; cbn [Logging.set_item map fst].
  - destruct (in_dec string_dec k []) as [[]|_]. reflexivity.
  - destruct (String.eqb_spec k0 k) as [->|N]; cbn [map fst].
    + destruct (in_dec string_dec k (k :: map fst d)) as [_|X];
        [reflexivity|]. exfalso. apply X. now left.
    + rewrite IH.
      destruct (in_dec string_dec k (map fst d)) as [I|I];
        destruct (in_dec string_dec k (k0 :: map fst d)) as [J|J];
        try reflexivity.
      * exfalso. apply J. now right.
      * destruct J as [J|J]; [congruence|contradiction].
Qed.

Lemma get_None_iff (d : Logging.dict) (k : string) :
  Logging.get d k = None <-> ~ In k (keys d).
Proof.
  unfold keys. induction d as [|[k0 v0] d IH]; cbn [Logging.get map fst In].
  - tauto.
  - destruct (String.eqb_spec k0 k) as [->|N].
    + split; [discriminate|]. intros X. exfalso. apply X. now left.
    + rewrite IH. tauto.
Qed.

Lemma get_update (d e : Logging.dict) (k : string) :
  NoDup (keys e) ->
  Logging.get (Logging.update d e) k =
  match Logging.get e k with
  | Some v => Some v
  | None => Logging.get d k
  end.
Proof.
  unfold Logging.update. revert d.
  induction e as [|[k0 v0] e IH]; intros d ND; cbn [fold_left Logging.get].
  - reflexivity.
  - cbn [keys map fst] in ND. inversion ND as [|? ? Hk ND']; subst.
    cbn [fst snd]. rewrite (IH _ ND'), get_set_item.
    destruct (String.eqb_spec k0 k) as [->|N]; [|reflexivity].
    apply get_None_iff in Hk. rewrite Hk. reflexivity.
Qed.

(** Keys that are new are appended in order. *)
Lemma update_fresh (d e : Logging.dict) :
  NoDup (keys e) -> (forall k, In k (keys e) -> ~ In k (keys d)) ->
  Logging.update d e = (d ++ e)%list.
Proof.
  unfold Logging.update. revert d.
  induction e as [|[k0 v0] e IH]; intros d ND F; cbn [fold_left fst snd].
  - rewrite app_nil_r. reflexivity.
  - cbn [keys map fst] in ND, F. inversion ND as [|? ? Hk ND']; subst.
    assert (S : Logging.set_item d k0 v0 = (d ++ [(k0, v0)])%list).
    { assert (Fd : ~ In k0 (keys d)) by (apply F; now left).
      clear - Fd. induction d as [|[k1 v1] d IH];
        cbn [Logging.set_item app]; [reflexivity|].
      cbn [keys map fst In] in Fd.
      destruct (String.eqb_spec k1 k0) as [->|N]; [tauto|].
      rewrite IH by tauto. reflexivity. }
    rewrite S, IH.
    + rewrite <- app_assoc. reflexivity.
    + exact ND'.
    + intros k I J. unfold keys in J. rewrite map_app in J.
      apply in_app_or in J. destruct J as [J|[J|[]]].
      * apply (F k); [now right|exact J].
      * cbn [fst] in J. subst. contradiction.
Qed.

Lemma log_data_eq (timestamp : string) (record : Logging.LogRecord) :
  Logging.log_data timestamp record =
  Logging.update (standard_fields timestamp record) (extra_of record).
Proof.
  unfold Logging.log_data, standard_fields, extra_of.
  destruct (Logging.exc_text record) as [text|];
    destruct (Logging.extra_data record) as [[|kv e]|]; reflexivity.
Qed.

(** X17.  Every field of [extra_data] is in the log line with its value, also
    when its name is that of a standard field, which it then replaces; a
    standard field that no extra field names keeps its value; and the line
    has each key once. *)
Theorem log_data_fields (timestamp : string) (record : Logging.LogRecord)
    (k : string) :
  NoDup (keys (extra_of record)) ->
  Logging.get (Logging.log_data timestamp record) k =
    match Logging.get (extra_of record) k with
    | Some v => Some v
    | None => Logging.get (standard_fields timestamp record) k
    end /\
  NoDup (keys (Logging.log_data timestamp record)).
Proof.
  intros ND. rewrite log_data_eq. split; [apply get_update; exact ND|].
  assert (S : NoDup (keys (standard_fields timestamp record))).
  { unfold standard_fields, keys.
    destruct (Logging.exc_text record); cbn [app map fst];
      repeat constructor; cbn [In]; intuition discriminate. }
  clear ND. unfold Logging.update.
  generalize dependent (standard_fields timestamp record).
  induction (extra_of record) as [|[k0 v0] e IH]; intros d S;
    cbn [fold_left fst snd]; [exact S|].
  apply IH. rewrite keys_set_item.
  destruct (in_dec string_dec k0 (keys d)) as [I|I]; [exact S|].
  apply NoDup_app; [exact S|repeat constructor; intros []|].
  intros x Hx [<-|[]]. contradiction.
Qed.

Lemma log_data_fields_witness :
  Logging.get
    (Logging.log_data "2026-01-01T00:00:00"
       (Logging.mkLogRecord "INFO" "app" "Calculating risk" "risk_scorer"
          "calculate_risk" 29 None
          (Some [("message", Logging.Str "shadow");
                 ("age", Logging.Int 45)]%string)))
    "message" = Some (Logging.Str "shadow").
Proof.
  refine (proj1 (log_data_fields "2026-01-01T00:00:00"
       (Logging.mkLogRecord "INFO" "app" "Calculating risk" "risk_scorer"
          "calculate_risk" 29 None
          (Some [("message", Logging.Str "shadow");
                 ("age", Logging.Int 45)]%string)) "message" _)).
  cbn. repeat constructor; cbn [In]; intuition discriminate.
Defined.

(** X18.  The two log lines of [calculate_risk] shadow no standard field:
    each is the standard fields followed by the extra fields of the call,
    in order.  The score in the second line is the weighted score itself,
    0.3 * ageRisk + 0.4 * bmiRisk + 0.3 * bpRisk as binary64 arithmetic
    gives it, not the score returned, which is that number rounded to 3
    decimals; the level in the line is the level returned. *)
Theorem calculate_risk_log_lines (m : HealthMetrics) :
  (forall call timestamp record,
     In call (Logging.calculate_risk_log m) ->
     Logging.extra_data record = Some (snd call) ->
     Logging.exc_text record = None ->
     Logging.log_data timestamp record =
       (standard_fields timestamp record ++ snd call)%list) /\
  (exists r,
     calculate_risk m = Ok r /\
     risk_score r = Py.round (weighted_score m) 3 /\
     Logging.calculate_risk_log m =
       [("Calculating risk",
         [("age", Logging.Int (age m)); ("bmi", Logging.Float (bmi m));
          ("bp", Logging.Int (blood_pressure_systolic m))]);
        ("Risk calculated",
         [("risk_score",
           Logging.Float
             ((age_risk_of m * 0.3) + (bmi_risk_of m * 0.4)
              + (bp_risk_of m * 0.3))%float);
          ("risk_level",
           Logging.Str (RiskLevel_value (risk_level r)))])]%string /\
     (forall call, In call (Logging.calculate_risk_log m) ->
        fst call = "Risk calculated"%string ->
        Logging.get (snd call) "risk_score" =
          Some (Logging.Float (weighted_score m)) /\
        Logging.get (snd call) "risk_level" =
          Some (Logging.Str (RiskLevel_value (risk_level r))))).
Proof.
  split.
  - intros call timestamp record Hin He Hx.
    rewrite log_data_eq. unfold extra_of. rewrite He.
    unfold standard_fields. rewrite Hx.
    unfold Logging.calculate_risk_log in Hin. cbn [In] in Hin.
    destruct Hin as [<-|[<-|[]]]; cbn [snd];
      (apply update_fresh;
       [ cbn [keys map fst]; repeat constructor; cbn [In];
         intuition discriminate
       | cbn [keys map fst app In]; intros k H J;
         intuition (subst; discriminate) ]).
  - exists (mkRiskAssessment (Py.round (weighted_score m) 3)
              (_categorize_risk (weighted_score m)) 0.85
              (_identify_factors m (age_risk_of m) (bmi_risk_of m)
                 (bp_risk_of m))).
    split; [apply calculate_risk_returns|]. fields.
    split; [reflexivity|]. split; [reflexivity|].
    intros call Hin Hf.
    unfold Logging.calculate_risk_log in Hin. cbn [In] in Hin.
    destruct Hin as [<-|[<-|[]]]; cbn [fst snd] in *; [discriminate Hf|].
    split; reflexivity.
Qed.

Lemma calculate_risk_log_lines_witness :
  Logging.log_data "2026-01-01T00:00:00"
    (Logging.mkLogRecord "INFO" "app.domain.services.risk_scorer"
       "Risk calculated" "risk_scorer" "calculate_risk" 54 None
       (Some [("risk_score",
               Logging.Float (weighted_score (mkHealthMetrics 70 32 145)));
              ("risk_level", Logging.Str "critical")]%string)) =
  [("timestamp", Logging.Str "2026-01-01T00:00:00");
   ("level", Logging.Str "INFO");
   ("logger", Logging.Str "app.domain.services.risk_scorer");
   ("message", Logging.Str "Risk calculated");
   ("module", Logging.Str "risk_scorer");
   ("function", Logging.Str "calculate_risk");
   ("line", Logging.Int 54);
   ("risk_score", Logging.Float 0.8600000000000001);
   ("risk_level", Logging.Str "critical")]%string /\
  exists r,
    calculate_risk (mkHealthMetrics 70 32 145) = Ok r /\
    risk_score r = 0.86%float /\
    Logging.get
      [("risk_score",
        Logging.Float (weighted_score (mkHealthMetrics 70 32 145)));
       ("risk_level", Logging.Str "critical")]%string "risk_score" =
      Some (Logging.Float 0.8600000000000001).
Proof.
  destruct (calculate_risk_log_lines (mkHealthMetrics 70 32 145))
    as (H & r & Hr & Hs & _ & Hget).
  split.
  - apply (H ("Risk calculated"%string,
              [("risk_score",
                Logging.Float (weighted_score (mkHealthMetrics 70 32 145)));
               ("risk_level", Logging.Str "critical")]%string)).
    + right. left. vm_compute. reflexivity.
    + vm_compute. reflexivity.
    + reflexivity.
  - exists r. split; [exact Hr|]. split.
    + rewrite Hs. vm_compute. reflexivity.
    + destruct (Hget ("Risk calculated"%string,
              [("risk_score",
                Logging.Float (weighted_score (mkHealthMetrics 70 32 145)));
               ("risk_level", Logging.Str "critical")]%string))
        as (G & _).
      * right. left. vm_compute. reflexivity.
      * reflexivity.
      * cbn [snd] in G. rewrite G. vm_compute. reflexivity.
Defined.
